(** * NetworkTool: the diagnostics engine of [modules/network_diagnostics.py]
      and the port sweep of [modules/website_analysis.py]

    A shallow embedding of the Python code.  Conventions:

    - text is [string]; a character stands for the code point of the same
      number (U+0000 .. U+00FF), which covers what ping and traceroute
      print;
    - Python [int] is [Z]; Python [float] is modelled by the exact
      rational [Q] it approximates (conversion from a decimal literal and
      the ordering [<=] are monotone under rounding, so order facts carry
      over; equalities are equalities of rationals);
    - a Python function is an [outcome]: it returns a value or raises;
      [try]/[except] is modelled explicitly on a state monad in which the
      state (the [result] dictionary under construction) survives a raise;
    - the operating system, the network and the thread pool are a [World]
      of oracles the functions consult. *)

From stdpp Require Import gmap strings list sorting.
From Stdlib Require Import QArith Ascii String ZArith Lia Lqa Permutation DecimalString.

Open Scope Z_scope.
Open Scope string_scope.
Open Scope list_scope.

(** ** Characters and text *)

Module Text.

Definition code (c : ascii) : N := N_of_ascii c.

(** [str.isspace] on U+0000..U+00FF, which is what [\s] tests. *)
Definition isspace (c : ascii) : bool :=
  let n := code c in
  ((9 <=? n) && (n <=? 13) || (28 <=? n) && (n <=? 32)
   || (n =? 133) || (n =? 160))%N.

(** [\d] on U+0000..U+00FF. *)
Definition isdigit (c : ascii) : bool :=
  let n := code c in ((48 <=? n) && (n <=? 57))%N.

Definition digit_val (c : ascii) : Z := Z.of_N (code c) - 48.

Definition ascii_eqb (a b : ascii) : bool := (code a =? code b)%N.

Fixpoint mem (c : ascii) (set : string) : bool :=
  match set with
  | EmptyString => false
  | String d set' => ascii_eqb c d || mem c set'
  end.

Fixpoint prefix (p s : string) : bool :=
  match p, s with
  | EmptyString, _ => true
  | String a p', String b s' => ascii_eqb a b && prefix p' s'
  | String _ _, EmptyString => false
  end.

(** [needle in hay] *)
Fixpoint contains (needle hay : string) : bool :=
  prefix needle hay ||
  match hay with
  | EmptyString => false
  | String _ hay' => contains needle hay'
  end.

Fixpoint rev_onto (s acc : string) : string :=
  match s with
  | EmptyString => acc
  | String c s' => rev_onto s' (String c acc)
  end.

Definition rev (s : string) : string := rev_onto s EmptyString.

Fixpoint lstrip (s : string) : string :=
  match s with
  | String c s' => if isspace c then lstrip s' else s
  | EmptyString => EmptyString
  end.

(** [str.lower()] on U+0000..U+00FF *)
Definition lower_char (c : ascii) : ascii :=
  let n := code c in
  if ((65 <=? n) && (n <=? 90)
      || (192 <=? n) && (n <=? 222) && negb (n =? 215))%N
  then ascii_of_N (n + 32) else c.

Fixpoint lower (s : string) : string :=
  match s with
  | EmptyString => EmptyString
  | String c s' => String (lower_char c) (lower s')
  end.

(** [str.strip()] *)
Definition strip (s : string) : string := rev (lstrip (rev (lstrip s))).

(** The first [n] characters. *)
Fixpoint take (n : nat) (s : string) : string :=
  match n, s with
  | S n', String c s' => String c (take n' s')
  | _, _ => EmptyString
  end.

(** What was consumed between [s] and its suffix [rest]. *)
Definition consumed (s rest : string) : string :=
  take (String.length s - String.length rest) s.

(** [str.split(sep)] for a one-character separator. *)
Fixpoint split_on (sep : ascii) (s : string) (cur : string) : list string :=
  match s with
  | EmptyString => [rev cur]
  | String c s' =>
      if ascii_eqb c sep then rev cur :: split_on sep s' EmptyString
      else split_on sep s' (String c cur)
  end.

Definition split (sep : ascii) (s : string) : list string :=
  split_on sep s EmptyString.

(** Line boundaries of [str.splitlines()] on U+0000..U+00FF:
    LF, VT, FF, CR, FS, GS, RS, NEL; CR LF counts as one. *)
Definition islinebreak (c : ascii) : bool :=
  let n := code c in
  ((10 <=? n) && (n <=? 13) || (28 <=? n) && (n <=? 30) || (n =? 133))%N.

Fixpoint splitlines_on (s : string) (cur : string) : list string :=
  match s with
  | EmptyString =>
      match cur with EmptyString => [] | _ => [rev cur] end
  | String c s' =>
      if islinebreak c then
        match s' with
        | String d s'' =>
            if ((code c =? 13) && (code d =? 10))%N
            then rev cur :: splitlines_on s'' EmptyString
            else rev cur :: splitlines_on s' EmptyString
        | EmptyString => [rev cur]
        end
      else splitlines_on s' (String c cur)
  end.

Definition splitlines (s : string) : list string :=
  splitlines_on s EmptyString.

(** Decimal rendering of an integer, as an f-string prints it. *)
Definition of_Z (z : Z) : string :=
  DecimalString.NilZero.string_of_int (Z.to_int z).

End Text.

(** ** Regular expressions

    The fragment of Python's [re] the sources use, with its backtracking
    semantics: alternatives left to right, greedy repetition, numbered
    groups (the last iteration of a repeated group wins), [^] at the very
    start, [$] at the end or before a final newline. *)

Module Re.

Inductive regex : Type :=
| Nil
| Cls (p : ascii -> bool)
| Seq (r1 r2 : regex)
| Or (r1 r2 : regex)
| Rep (r : regex)
| Grp (n : nat) (r : regex)
| Bol
| Eol.

Definition Chr (c : ascii) : regex := Cls (Text.ascii_eqb c).
Definition Plus (r : regex) : regex := Seq r (Rep r).
Definition Opt (r : regex) : regex := Or r Nil.

Fixpoint Lit (s : string) : regex :=
  match s with
  | EmptyString => Nil
  | String c s' => Seq (Chr c) (Lit s')
  end.

Definition digit : regex := Cls Text.isdigit.
Definition space : regex := Cls Text.isspace.
Definition anyof (set : string) : regex := Cls (fun c => Text.mem c set).
Definition noneof (set : string) : regex := Cls (fun c => negb (Text.mem c set)).
Definition nonspace : regex := Cls (fun c => negb (Text.isspace c)).
(** [.] without DOTALL *)
Definition dot : regex := Cls (fun c => negb (Text.ascii_eqb c "010"%char)).

Abbreviation groups := (gmap nat string).

Record found : Type := Found { rest : string; caps : groups }.

Definition cont : Type := string -> groups -> option found.

(** Greedy repetition of [body]: one more iteration if it consumes
    something and the rest then matches, otherwise stop here.  [fuel]
    bounds the iterations by the characters left. *)
Definition rep_loop (body : string -> groups -> cont -> option found) (k : cont)
  : nat -> string -> groups -> option found :=
  fix loop (fuel : nat) (s : string) (g : groups) {struct fuel} : option found :=
    match
      body s g
        (fun s' g' =>
           if (String.length s' <? String.length s)%nat then
             match fuel with
             | S fuel' => loop fuel' s' g'
             | O => None
             end
           else None)
    with
    | Some f => Some f
    | None => k s g
    end.

(** [run r total s g k]: match [r] at the front of [s], a suffix of a
    text of length [total], then continue with [k]; [None] makes the
    caller try its next alternative. *)
Fixpoint run (r : regex) (total : nat) (s : string) (g : groups) (k : cont)
  {struct r} : option found :=
  match r with
  | Nil => k s g
  | Cls p =>
      match s with
      | String c s' => if p c then k s' g else None
      | EmptyString => None
      end
  | Seq r1 r2 => run r1 total s g (fun s' g' => run r2 total s' g' k)
  | Or r1 r2 =>
      match run r1 total s g k with
      | Some f => Some f
      | None => run r2 total s g k
      end
  | Rep r' => rep_loop (run r' total) k (String.length s) s g
  | Grp n r' =>
      run r' total s g (fun s' g' => k s' (<[n := Text.consumed s s']> g'))
  | Bol => if (String.length s =? total)%nat then k s g else None
  | Eol =>
      match s with
      | EmptyString => k s g
      | String c EmptyString =>
          if Text.ascii_eqb c "010"%char then k s g else None
      | _ => None
      end
  end.

Definition accept : cont := fun s g => Some (Found s g).

(** [re.match]: at the start only. *)
Definition re_match (r : regex) (s : string) : option found :=
  run r (String.length s) s ∅ accept.

Fixpoint search_from (r : regex) (total : nat) (s : string) : option found :=
  match run r total s ∅ accept with
  | Some f => Some f
  | None =>
      match s with
      | EmptyString => None
      | String _ s' => search_from r total s'
      end
  end.

(** [re.search]: the leftmost position at which the pattern matches. *)
Definition search (r : regex) (s : string) : option found :=
  search_from r (String.length s) s.

(** [m.group(n)] of a group that took part in the match. *)
Definition group (f : found) (n : nat) : string :=
  default EmptyString (caps f !! n).

(** [re.findall] for a pattern with one group: group 1 of the successive
    non-overlapping matches, left to right. *)
Fixpoint findall_from (fuel : nat) (r : regex) (total : nat) (s : string)
  : list string :=
  match fuel with
  | O => []
  | S fuel' =>
      match run r total s ∅ accept with
      | Some f =>
          if (String.length (rest f) <? String.length s)%nat
          then group f 1 :: findall_from fuel' r total (rest f)
          else
            match s with
            | EmptyString => [group f 1]
            | String _ s' => group f 1 :: findall_from fuel' r total s'
            end
      | None =>
          match s with
          | EmptyString => []
          | String _ s' => findall_from fuel' r total s'
          end
      end
  end.

Definition findall (r : regex) (s : string) : list string :=
  findall_from (S (String.length s)) r (String.length s) s.

(** *** What a pattern can consume

    [lang r p]: the pattern [r] can consume exactly the text [p]
    (anchors consume nothing, groups are transparent). *)
Inductive lang : regex -> string -> Prop :=
| lang_nil : lang Nil EmptyString
| lang_cls p c : p c = true -> lang (Cls p) (String c EmptyString)
| lang_seq r1 r2 a b : lang r1 a -> lang r2 b -> lang (Seq r1 r2) (a +:+ b)
| lang_or_l r1 r2 a : lang r1 a -> lang (Or r1 r2) a
| lang_or_r r1 r2 a : lang r2 a -> lang (Or r1 r2) a
| lang_rep_nil r : lang (Rep r) EmptyString
| lang_rep_cons r a b : lang r a -> lang (Rep r) b -> lang (Rep r) (a +:+ b)
| lang_grp n r a : lang r a -> lang (Grp n r) a
| lang_bol : lang Bol EmptyString
| lang_eol : lang Eol EmptyString.

(** Every group of [r] can only capture texts that satisfy [P]. *)
Fixpoint captures (P : nat -> string -> Prop) (r : regex) : Prop :=
  match r with
  | Grp n r' => (forall p, lang r' p -> P n p) /\ captures P r'
  | Seq r1 r2 | Or r1 r2 => captures P r1 /\ captures P r2
  | Rep r' => captures P r'
  | Nil | Cls _ | Bol | Eol => True
  end.

(** The groups that are set whenever [r] matches. *)
Fixpoint assigned (r : regex) : list nat :=
  match r with
  | Grp n r' => n :: assigned r'
  | Seq r1 r2 => assigned r1 ++ assigned r2
  | Or _ _ | Rep _ | Nil | Cls _ | Bol | Eol => []
  end.

(** Every captured text satisfies [P]. *)
Definition good (P : nat -> string -> Prop) (g : groups) : Prop :=
  forall n p, g !! n = Some p -> P n p.

(** What holds when [run] hands over to its continuation. *)
Definition handed_over (P : nat -> string -> Prop) (r : regex) (s : string) (g : groups) (k : cont)
  (f : found) : Prop :=
  exists p s' g',
    s = p +:+ s' /\ lang r p /\ good P g' /\
    (forall n, is_Some (g !! n) \/ In n (assigned r) -> is_Some (g' !! n)) /\
    k s' g' = Some f.

End Re.

(** ** Python values, exceptions and conversions *)

Inductive exn_class : Type :=
| ValueError
| UnicodeDecodeError
| ZeroDivisionError
| CalledProcessError
| OSError
| RequestException
| OtherException (name : string).

Record exn : Type := Exn { exn_kind : exn_class; exn_text : string }.

(** [str(e)] *)
Definition str_exn (e : exn) : string := exn_text e.

(** [isinstance(e, ValueError)]: [UnicodeError] derives from it. *)
Definition is_ValueError (e : exn) : bool :=
  match exn_kind e with
  | ValueError | UnicodeDecodeError => true
  | _ => false
  end.

Inductive outcome (A : Type) : Type :=
| Ret (a : A)
| Raise (e : exn).
Arguments Ret {A} a.
Arguments Raise {A} e.

Definition raises {A} (o : outcome A) : Prop := exists e, o = Raise e.
Definition returns {A} (o : outcome A) : Prop := exists a, o = Ret a.

(** [repr] of a text that has no quote, backslash or control character. *)
Definition py_repr (s : string) : string := "'" +:+ s +:+ "'".

Module Conv.

Fixpoint all_digits (s : string) : bool :=
  match s with
  | EmptyString => true
  | String c s' => Text.isdigit c && all_digits s'
  end.

Fixpoint digits_val (s : string) (acc : Z) : Z :=
  match s with
  | EmptyString => acc
  | String c s' => digits_val s' (10 * acc + Text.digit_val c)
  end.

(** Digits with single underscores between them, as [int] accepts. *)
Fixpoint int_body (s : string) (acc : Z) (after_digit : bool) : option Z :=
  match s with
  | EmptyString => if after_digit then Some acc else None
  | String c s' =>
      if Text.isdigit c then int_body s' (10 * acc + Text.digit_val c) true
      else if Text.ascii_eqb c "_"%char && after_digit
           then int_body s' acc false
           else None
  end.

Definition int_literal (s : string) : option Z :=
  match Text.strip s with
  | String "+"%char t => int_body t 0 false
  | String "-"%char t => Z.opp <$> int_body t 0 false
  | t => int_body t 0 false
  end.

(** [int(s)] for a text [s] (the interpreter's optional cap on the
    number of digits is left out). *)
Definition py_int (s : string) : outcome Z :=
  match int_literal s with
  | Some z => Ret z
  | None =>
      Raise (Exn ValueError
                 ("invalid literal for int() with base 10: " +:+ py_repr s))
  end.

(** The text before the first "." and, if there is one, the text after. *)
Fixpoint split_dot (s : string) : string * option string :=
  match s with
  | EmptyString => (EmptyString, None)
  | String c s' =>
      if Text.ascii_eqb c "."%char then (EmptyString, Some s')
      else let (ip, fp) := split_dot s' in (String c ip, fp)
  end.

(** An unsigned plain decimal: digits, or digits "." digits with either
    side possibly empty but not both. *)
Definition float_literal (s : string) : option Q :=
  match split_dot s with
  | (ip, None) =>
      if all_digits ip && negb (String.length ip =? 0)%nat
      then Some (inject_Z (digits_val ip 0)) else None
  | (ip, Some fp) =>
      if all_digits ip && all_digits fp
         && negb (String.length ip + String.length fp =? 0)%nat
      then Some (Qred (Qmake (digits_val (ip +:+ fp) 0)
                             (Z.to_pos (10 ^ Z.of_nat (String.length fp)))))
      else None
  end.

(** [float(s)] for the texts that reach it here: they are matched by
    [\d+], [\d+\.\d+], [[0-9.]+] or [[*]+], so signs, exponents, blanks,
    underscores, [inf] and [nan] cannot occur. *)
Definition py_float (s : string) : outcome Q :=
  match float_literal s with
  | Some q => Ret q
  | None =>
      Raise (Exn ValueError
                 ("could not convert string to float: " +:+ py_repr s))
  end.

(** [a / b] on integers *)
Definition truediv (a b : Z) : outcome Q :=
  if (b =? 0)%Z then Raise (Exn ZeroDivisionError "division by zero")
  else Ret (Qred (inject_Z a / inject_Z b)).

Definition fmul (a b : Q) : Q := Qred (a * b).
Definition fadd (a b : Q) : Q := Qred (a + b).
Definition fsub (a b : Q) : Q := Qred (a - b).
Definition fdiv (a b : Q) : outcome Q :=
  if Qeq_bool b 0 then Raise (Exn ZeroDivisionError "float division by zero")
  else Ret (Qred (a / b)).

End Conv.

(** ** Control: state that survives a raise, and [try]/[except] *)

Module Py.
Section WithState.
Context {St : Type}.

Definition M (A : Type) : Type := St -> outcome A * St.

Definition ret {A} (a : A) : M A := fun s => (Ret a, s).

Definition bind {A B} (m : M A) (f : A -> M B) : M B :=
  fun s =>
    match m s with
    | (Ret a, s') => f a s'
    | (Raise e, s') => (Raise e, s')
    end.

Definition lift {A} (o : outcome A) : M A := fun s => (o, s).

Definition get : M St := fun s => (Ret s, s).

Definition modify (f : St -> St) : M unit := fun s => (Ret tt, f s).

(** [try: body except Exception as e: handler e] *)
Definition try_except {A} (body : M A) (handler : exn -> M A) : M A :=
  fun s =>
    match body s with
    | (Ret a, s') => (Ret a, s')
    | (Raise e, s') => handler e s'
    end.

(** [for x in xs: body x] *)
Fixpoint for_each {A} (xs : list A) (body : A -> M unit) : M unit :=
  match xs with
  | [] => ret tt
  | x :: xs' => bind (body x) (fun _ => for_each xs' body)
  end.

End WithState.
Arguments M : clear implicits.
End Py.

Notation "'let*' x ':=' c1 'in' c2" := (Py.bind c1 (fun x => c2))
  (at level 10, x name, c1 at level 100, c2 at level 200).
Notation "c1 ';;;' c2" := (Py.bind c1 (fun _ => c2))
  (at level 100, c2 at level 200, right associativity).

(** ** The world outside the program *)

Record Response : Type := {
  (** sizes of the chunks [iter_content] yields *)
  chunks : list nat;
  (** the failure that ends the stream early, if any *)
  broken : option exn
}.

Record World : Type := {
  (** [platform.system()] *)
  system : string;
  (** [subprocess.check_output(cmd, shell=True).decode()] *)
  check_output : string -> outcome string;
  (** [socket.gethostbyaddr(ip)[0]] *)
  gethostbyaddr : string -> outcome string;
  (** [socket.getfqdn(ip)] *)
  getfqdn : string -> outcome string;
  (** exit status of [os.system(cmd)] *)
  os_system : string -> Z;
  (** [[str(ip) for ip in ipaddress.ip_network(subnet, strict=False).hosts()]] *)
  ip_network : string -> outcome (list string);
  (** the order in which [as_completed] hands back [n] futures, by
      submission index *)
  as_completed : nat -> list nat;
  (** [sock.connect_ex((domain, port))] of the [i]-th submitted probe *)
  connect_ex : nat -> string -> Z -> outcome Z;
  (** successive readings of [time.time()] *)
  clock : nat -> Q;
  (** [requests.get(url, ...)] *)
  http_get : string -> outcome Response;
  (** [requests.post(url, ...)] *)
  http_post : string -> outcome unit
}.

(** [as_completed] yields every future exactly once. *)
Definition fair (w : World) : Prop :=
  forall n, Permutation (as_completed w n) (seq 0 n).

(** ** The patterns of [network_diagnostics.py] *)

Module Pat.
Import Re.

Fixpoint cat (rs : list regex) : regex :=
  match rs with
  | [] => Nil
  | [r] => r
  | r :: rs' => Seq r (cat rs')
  end.

Definition digits : regex := Plus digit.
Definition decimal : regex := cat [digits; Chr "."; digits].
Definition spaces : regex := Plus space.

(** [Minimum = (\d+)ms, Maximum = (\d+)ms, Average = (\d+)ms] *)
Definition win_latency : regex :=
  cat [Lit "Minimum = "; Grp 1 digits; Lit "ms, Maximum = "; Grp 2 digits;
       Lit "ms, Average = "; Grp 3 digits; Lit "ms"].

(** [min/avg/max/[^=]+ = (\d+\.\d+)/(\d+\.\d+)/(\d+\.\d+)] *)
Definition posix_latency : regex :=
  cat [Lit "min/avg/max/"; Plus (noneof "="); Lit " = "; Grp 1 decimal;
       Chr "/"; Grp 2 decimal; Chr "/"; Grp 3 decimal].

(** [Sent = (\d+), Received = (\d+), Lost = (\d+)] *)
Definition win_loss : regex :=
  cat [Lit "Sent = "; Grp 1 digits; Lit ", Received = "; Grp 2 digits;
       Lit ", Lost = "; Grp 3 digits].

(** [(\d+) packets transmitted, (\d+) [packets ]*received] *)
Definition posix_loss : regex :=
  cat [Grp 1 digits; Lit " packets transmitted, "; Grp 2 digits; Chr " ";
       Rep (anyof "packets "); Lit "received"].

Definition win_field : regex := Or digits (Plus (Chr "*")).

(** [^\s*(\d+)\s+(\d+|[*]+)\s+ms\s+(\d+|[*]+)\s+ms\s+(\d+|[*]+)\s+ms\s+(.+)$] *)
Definition win_hop : regex :=
  cat [Bol; Rep space; Grp 1 digits; spaces;
       Grp 2 win_field; spaces; Lit "ms"; spaces;
       Grp 3 win_field; spaces; Lit "ms"; spaces;
       Grp 4 win_field; spaces; Lit "ms"; spaces;
       Grp 5 (Plus dot); Eol].

(** [^\s*(\d+)\s+([^\s]+)(?:\s+\(([^\)]+)\))?\s+(?:([0-9.]+)\s+ms\s+)+] *)
Definition posix_hop : regex :=
  cat [Bol; Rep space; Grp 1 digits; spaces; Grp 2 (Plus nonspace);
       Opt (cat [spaces; Chr "("; Grp 3 (Plus (noneof ")")); Chr ")"]);
       spaces;
       Plus (cat [Grp 4 (Plus (anyof "0123456789.")); spaces; Lit "ms"; spaces])].

(** [([0-9.]+)\s+ms] *)
Definition sample : regex :=
  cat [Grp 1 (Plus (anyof "0123456789.")); spaces; Lit "ms"].

(** [^\d+\.\d+\.\d+\.\d+$] *)
Definition dotted_quad : regex :=
  cat [Bol; digits; Chr "."; digits; Chr "."; digits; Chr "."; digits; Eol].

End Pat.

(** ** [NetworkDiagnostics] *)

Module Latency.
Record t : Type := Make { min : Q; avg : Q; max : Q; error : option string }.
Definition set_min (v : Q) (r : t) : t := Make v (avg r) (max r) (error r).
Definition set_avg (v : Q) (r : t) : t := Make (min r) v (max r) (error r).
Definition set_max (v : Q) (r : t) : t := Make (min r) (avg r) v (error r).
Definition set_error (v : string) (r : t) : t :=
  Make (min r) (avg r) (max r) (Some v).
(** [{"min": 0.0, "avg": 0.0, "max": 0.0}] *)
Definition unavailable : t := Make 0 0 0 None.
End Latency.

Module PacketLoss.
Record t : Type := Make {
  sent : Z; received : Z; lost : Z; loss_percentage : Q; error : option string
}.
Definition set_sent (v : Z) (r : t) : t :=
  Make v (received r) (lost r) (loss_percentage r) (error r).
Definition set_received (v : Z) (r : t) : t :=
  Make (sent r) v (lost r) (loss_percentage r) (error r).
Definition set_lost (v : Z) (r : t) : t :=
  Make (sent r) (received r) v (loss_percentage r) (error r).
Definition set_loss_percentage (v : Q) (r : t) : t :=
  Make (sent r) (received r) (lost r) v (error r).
Definition set_error (v : string) (r : t) : t :=
  Make (sent r) (received r) (lost r) (loss_percentage r) (Some v).
End PacketLoss.

Definition is_windows (w : World) : bool := String.eqb (system w) "Windows".

Section Diagnostics.
Variable w : World.

(** [NetworkDiagnostics.latency_check] *)
Definition latency_body (host : string) : Py.M Latency.t unit :=
  if is_windows w then
    let* output := Py.lift (check_output w ("ping " +:+ host +:+ " -n 10")) in
    match Re.search Pat.win_latency output with
    | Some m =>
        let* v := Py.lift (Conv.py_float (Re.group m 1)) in
        Py.modify (Latency.set_min v);;;
        let* v := Py.lift (Conv.py_float (Re.group m 2)) in
        Py.modify (Latency.set_max v);;;
        let* v := Py.lift (Conv.py_float (Re.group m 3)) in
        Py.modify (Latency.set_avg v)
    | None => Py.ret tt
    end
  else
    let* output := Py.lift (check_output w ("ping -c 10 " +:+ host)) in
    match Re.search Pat.posix_latency output with
    | Some m =>
        let* v := Py.lift (Conv.py_float (Re.group m 1)) in
        Py.modify (Latency.set_min v);;;
        let* v := Py.lift (Conv.py_float (Re.group m 2)) in
        Py.modify (Latency.set_avg v);;;
        let* v := Py.lift (Conv.py_float (Re.group m 3)) in
        Py.modify (Latency.set_max v)
    | None => Py.ret tt
    end.

Definition latency_check (host : string) : outcome Latency.t :=
  fst ((Py.try_except (latency_body host)
          (fun e => Py.modify (Latency.set_error (str_exn e)));;;
        Py.get)
         Latency.unavailable).

(** [NetworkDiagnostics.packet_loss_analysis] *)
Definition loss_ratio : Py.M PacketLoss.t unit :=
  let* r := Py.get in
  let* q := Py.lift (Conv.truediv (PacketLoss.lost r) (PacketLoss.sent r)) in
  Py.modify (PacketLoss.set_loss_percentage (Conv.fmul q 100)).

Definition packet_loss_body (host : string) (packets : Z)
  : Py.M PacketLoss.t unit :=
  if is_windows w then
    let* output :=
      Py.lift (check_output w
                 ("ping " +:+ host +:+ " -n " +:+ Text.of_Z packets)) in
    match Re.search Pat.win_loss output with
    | Some m =>
        let* v := Py.lift (Conv.py_int (Re.group m 1)) in
        Py.modify (PacketLoss.set_sent v);;;
        let* v := Py.lift (Conv.py_int (Re.group m 2)) in
        Py.modify (PacketLoss.set_received v);;;
        let* v := Py.lift (Conv.py_int (Re.group m 3)) in
        Py.modify (PacketLoss.set_lost v);;;
        loss_ratio
    | None => Py.ret tt
    end
  else
    let* output :=
      Py.lift (check_output w
                 ("ping -c " +:+ Text.of_Z packets +:+ " " +:+ host)) in
    match Re.search Pat.posix_loss output with
    | Some m =>
        let* v := Py.lift (Conv.py_int (Re.group m 1)) in
        Py.modify (PacketLoss.set_sent v);;;
        let* v := Py.lift (Conv.py_int (Re.group m 2)) in
        Py.modify (PacketLoss.set_received v);;;
        Py.modify (fun r =>
          PacketLoss.set_lost (PacketLoss.sent r - PacketLoss.received r) r);;;
        loss_ratio
    | None => Py.ret tt
    end.

Definition packet_loss_analysis (host : string) (packets : Z)
  : outcome PacketLoss.t :=
  fst ((Py.try_except (packet_loss_body host packets)
          (fun e =>
             Py.modify (PacketLoss.set_error (str_exn e));;;
             Py.modify (PacketLoss.set_loss_percentage 100));;;
        Py.get)
         (PacketLoss.Make packets 0 0 0 None)).

End Diagnostics.

(** A POSIX host on which every command prints [out]. *)
Definition posix_world (out : outcome string) : World :=
  {| system := "Linux";
     check_output := fun _ => out;
     gethostbyaddr := fun _ => Raise (Exn OSError "Unknown host");
     getfqdn := fun ip => Ret ip;
     os_system := fun _ => 1;
     ip_network := fun s => Raise (Exn ValueError
       (py_repr s +:+ " does not appear to be an IPv4 or IPv6 network"));
     as_completed := fun n => seq 0 n;
     connect_ex := fun _ _ _ => Ret 111;
     clock := fun n => inject_Z (Z.of_nat n);
     http_get := fun _ => Raise (Exn RequestException "connection failed");
     http_post := fun _ => Raise (Exn RequestException "connection failed") |}.

Definition windows_world (out : outcome string) : World :=
  {| system := "Windows";
     check_output := fun _ => out;
     gethostbyaddr := fun _ => Raise (Exn OSError "Unknown host");
     getfqdn := fun ip => Ret ip;
     os_system := fun _ => 1;
     ip_network := fun s => Raise (Exn ValueError
       (py_repr s +:+ " does not appear to be an IPv4 or IPv6 network"));
     as_completed := fun n => seq 0 n;
     connect_ex := fun _ _ _ => Ret 10061;
     clock := fun n => inject_Z (Z.of_nat n);
     http_get := fun _ => Raise (Exn RequestException "connection failed");
     http_post := fun _ => Raise (Exn RequestException "connection failed") |}.

Definition nl : string := String "010"%char EmptyString.

Module Hop.
Record t : Type := Make {
  hop : Z; host : string; ip : string; time : Q; error : option string
}.
(** the entry appended when the trace fails *)
Definition failed (text : string) : t := Make 1 "Error" "Error" 0 (Some text).
End Hop.

Section RouteTracing.
Variable w : World.

Fixpoint sum_floats (times : list string) (acc : Q) : outcome Q :=
  match times with
  | [] => Ret acc
  | t :: times' =>
      match Conv.py_float t with
      | Ret v => sum_floats times' (Conv.fadd acc v)
      | Raise e => Raise e
      end
  end.

(** [sum(map(float, times)) / len(times) if times else 0] *)
Definition average (times : list string) : outcome Q :=
  match times with
  | [] => Ret 0%Q
  | _ =>
      match sum_floats times 0 with
      | Ret s => Conv.fdiv s (inject_Z (Z.of_nat (List.length times)))
      | Raise e => Raise e
      end
  end.

(** The name of a dotted-quad address when the lookup succeeds, the
    address text itself otherwise. *)
Definition resolve (addr : string) : string :=
  match Re.re_match Pat.dotted_quad addr with
  | Some _ =>
      match gethostbyaddr w addr with
      | Ret name => name
      | Raise _ => addr
      end
  | None => addr
  end.

Definition append_hop (h : Hop.t) : Py.M (list Hop.t) unit :=
  Py.modify (fun hops => hops ++ [h]).

Definition win_header (line : string) : bool :=
  Text.contains "Tracing route" line || Text.contains "over a maximum" line
  || Text.contains "Trace complete" line.

Definition win_line (line : string) : Py.M (list Hop.t) unit :=
  if win_header line then Py.ret tt
  else
    match Re.search Pat.win_hop line with
    | Some m =>
        let* hop_num := Py.lift (Conv.py_int (Re.group m 1)) in
        let times :=
          List.filter (fun t => negb (String.eqb t "*"))
            [Re.group m 2; Re.group m 3; Re.group m 4] in
        let* avg_time := Py.lift (average times) in
        let ip_or_host := Text.strip (Re.group m 5) in
        append_hop (Hop.Make hop_num (resolve ip_or_host) ip_or_host avg_time None)
    | None => Py.ret tt
    end.

Definition posix_line (line : string) : Py.M (list Hop.t) unit :=
  if Text.contains "traceroute to" line then Py.ret tt
  else
    match Re.search Pat.posix_hop line with
    | Some m =>
        let* hop_num := Py.lift (Conv.py_int (Re.group m 1)) in
        let ip := Re.group m 2 in
        let times := Re.findall Pat.sample line in
        let* avg_time := Py.lift (average times) in
        append_hop (Hop.Make hop_num (resolve ip) ip avg_time None)
    | None => Py.ret tt
    end.

Definition route_body (host : string) : Py.M (list Hop.t) unit :=
  if is_windows w then
    let* output := Py.lift (check_output w ("tracert -d " +:+ host)) in
    Py.for_each (Text.splitlines output) win_line
  else
    let* output := Py.lift (check_output w ("traceroute -n " +:+ host)) in
    Py.for_each (Text.splitlines output) posix_line.

(** [NetworkDiagnostics.route_tracing] *)
Definition route_tracing (host : string) : outcome (list Hop.t) :=
  fst ((Py.try_except (route_body host)
          (fun e => append_hop (Hop.failed (str_exn e)));;;
        Py.get)
         []).

End RouteTracing.

Definition lines (ls : list string) : string :=
  foldr (fun l acc => l +:+ nl +:+ acc) EmptyString ls.

Definition posix_trace_with_silent_hop : string :=
  lines ["traceroute to example.org (10.9.9.9), 30 hops max, 60 byte packets";
         " 1  10.0.0.1  1.000 ms  1.200 ms  1.100 ms";
         " 2  * * *";
         " 3  10.0.0.3  5.000 ms * 7.000 ms"].

Module Device.
Record t : Type := Make { ip : string; status : string; hostname : string }.
End Device.

Module Scan.
Record t : Type := Make {
  error : option string;
  active_devices : list Device.t;
  total_scanned : Z;
  total_active : option Z
}.
Definition set_total_scanned (v : Z) (r : t) : t :=
  Make (error r) (active_devices r) v (total_active r).
Definition set_active_devices (v : list Device.t) (r : t) : t :=
  Make (error r) v (total_scanned r) (total_active r).
Definition set_total_active (v : Z) (r : t) : t :=
  Make (error r) (active_devices r) (total_scanned r) (Some v).

(** What a scan holds while it runs: the [results] dictionary and the
    probe commands handed to the pool so far. *)
Record state : Type := State { results : t; dispatched : list string }.
Definition on_results (f : t -> t) (s : state) : state :=
  State (f (results s)) (dispatched s).
Definition dispatch (cmd : string) (s : state) : state :=
  State (results s) (dispatched s ++ [cmd]).
End Scan.

(** Order of Python lists of integers: [a <= b]. *)
Fixpoint key_le (a b : list Z) : bool :=
  match a, b with
  | [], _ => true
  | _ :: _, [] => false
  | x :: a', y :: b' =>
      if (x <? y)%Z then true
      else if (y <? x)%Z then false
      else key_le a' b'
  end.

Section StableSort.
Context {A : Type}.

(** [x] goes in front of the first entry whose key is not smaller. *)
Fixpoint insert_by (x : list Z * A) (l : list (list Z * A)) : list (list Z * A) :=
  match l with
  | [] => [x]
  | y :: l' => if key_le (fst x) (fst y) then x :: y :: l' else y :: insert_by x l'
  end.

(** The stable ascending sort [list.sort(key=...)] performs, on entries
    paired with their keys. *)
Definition sort_by (l : list (list Z * A)) : list (list Z * A) :=
  foldr insert_by [] l.

(** Entries compared by their keys. *)
Definition by_key : list Z * A -> list Z * A -> Prop :=
  fun x y => key_le (fst x) (fst y) = true.

End StableSort.

Fixpoint map_outcome {A B} (f : A -> outcome B) (l : list A) : outcome (list B) :=
  match l with
  | [] => Ret []
  | x :: l' =>
      match f x with
      | Raise e => Raise e
      | Ret y =>
          match map_outcome f l' with
          | Raise e => Raise e
          | Ret ys => Ret (y :: ys)
          end
      end
  end.

(** [[int(part) for part in x["ip"].split('.')]] *)
Definition ip_key (d : Device.t) : outcome (list Z) :=
  map_outcome Conv.py_int (Text.split "."%char (Device.ip d)).

Definition with_key (d : Device.t) : outcome (list Z * Device.t) :=
  match ip_key d with
  | Ret k => Ret (k, d)
  | Raise e => Raise e
  end.

(** [devices.sort(key=lambda x: [int(part) for part in x["ip"].split('.')])]:
    every key is computed first; a key that raises aborts the sort. *)
Definition sort_devices (devices : list Device.t) : outcome (list Device.t) :=
  match map_outcome with_key devices with
  | Ret keyed => Ret (map snd (sort_by keyed))
  | Raise e => Raise e
  end.

Section NetworkScan.
Variable w : World.

Definition ping_param : string :=
  if String.eqb (Text.lower (system w)) "windows" then "-n" else "-c".

(** [check_ip], run by the pool for one address. *)
Definition check_ip (ip_str : string) : Py.M Scan.state (option Device.t) :=
  let command := "ping " +:+ ping_param +:+ " 1 -w 1 " +:+ ip_str in
  Py.modify (Scan.dispatch command);;;
  let response := os_system w (command +:+ " > /dev/null 2>&1") in
  let hostname :=
    match getfqdn w ip_str with
    | Ret name => if String.eqb name ip_str then "N/A" else name
    | Raise _ => "N/A"
    end in
  if (response =? 0)%Z
  then Py.ret (Some (Device.Make ip_str "Ativo" hostname))
  else Py.ret None.

(** [{executor.submit(check_ip, ip): ip for ip in hosts}] *)
Fixpoint submit_all (hosts : list string)
  : Py.M Scan.state (list (option Device.t)) :=
  match hosts with
  | [] => Py.ret []
  | ip :: hosts' =>
      let* r := check_ip ip in
      let* rs := submit_all hosts' in
      Py.ret (r :: rs)
  end.

Definition collect (futures : list (option Device.t)) (i : nat)
  : Py.M Scan.state unit :=
  match futures !! i with
  | Some (Some d) =>
      Py.modify (Scan.on_results (fun r =>
        Scan.set_active_devices (Scan.active_devices r ++ [d]) r))
  | _ => Py.ret tt
  end.

Definition invalid_subnet (subnet : string) : Scan.t :=
  Scan.Make (Some ("Subrede inv" +:+ String "225"%char "lida: " +:+ subnet))
            [] 0 None.

Definition scan_failed (e : exn) : Scan.t :=
  Scan.Make (Some ("Erro ao escanear a rede: " +:+ str_exn e)) [] 0 (Some 0).

Definition scan_body (subnet : string) : Py.M Scan.state Scan.t :=
  match ip_network w subnet with
  | Raise e =>
      if is_ValueError e then Py.ret (invalid_subnet subnet)
      else Py.lift (Raise e)
  | Ret all_hosts =>
      let total_ips := Nat.min 254 (List.length all_hosts) in
      let hosts := take total_ips all_hosts in
      Py.modify (Scan.on_results
                   (Scan.set_total_scanned (Z.of_nat (List.length hosts))));;;
      let* futures := submit_all hosts in
      Py.for_each (as_completed w (List.length futures)) (collect futures);;;
      let* s := Py.get in
      let* sorted := Py.lift (sort_devices (Scan.active_devices (Scan.results s))) in
      Py.modify (Scan.on_results (Scan.set_active_devices sorted));;;
      Py.modify (Scan.on_results (fun r =>
        Scan.set_total_active (Z.of_nat (List.length (Scan.active_devices r))) r));;;
      let* s := Py.get in
      Py.ret (Scan.results s)
  end.

Definition scan_run (subnet : string) : outcome Scan.t * Scan.state :=
  Py.try_except (scan_body subnet) (fun e => Py.ret (scan_failed e))
    (Scan.State (Scan.Make None [] 0 None) []).

(** [NetworkDiagnostics.network_scan] *)
Definition network_scan (subnet : string) : outcome Scan.t :=
  fst (scan_run subnet).

(** The probe commands the scan handed to the pool. *)
Definition network_scan_dispatched (subnet : string) : list string :=
  Scan.dispatched (snd (scan_run subnet)).

End NetworkScan.

(** A POSIX host on a network whose expansion of any valid subnet is
    [hosts], of which [alive] answer the ping; the pool completes the
    probes in the order [order]. *)
Definition lan_world (valid : string -> bool) (hosts alive : list string)
  (order : list nat) : World :=
  {| system := "Linux";
     check_output := fun _ => Raise (Exn CalledProcessError "exit status 1");
     gethostbyaddr := fun _ => Raise (Exn OSError "Unknown host");
     getfqdn := fun ip => Ret ip;
     os_system := fun cmd =>
       if existsb (fun ip =>
            String.eqb cmd ("ping -c 1 -w 1 " +:+ ip +:+ " > /dev/null 2>&1"))
            alive
       then 0 else 256;
     ip_network := fun s =>
       if valid s then Ret hosts
       else Raise (Exn ValueError
         (py_repr s +:+ " does not appear to be an IPv4 or IPv6 network"));
     as_completed := fun _ => order;
     connect_ex := fun _ _ _ => Ret 111;
     clock := fun n => inject_Z (Z.of_nat n);
     http_get := fun _ => Raise (Exn RequestException "connection failed");
     http_post := fun _ => Raise (Exn RequestException "connection failed") |}.

Definition sample_lan : World :=
  lan_world (String.eqb "10.0.0.0/23")
    ["10.0.0.2"; "10.0.0.3"; "10.0.0.10"; "10.0.1.1"]
    ["10.0.0.10"; "10.0.0.2"; "10.0.1.1"]
    [2; 1; 0; 3]%nat.

(** ** [WebsiteAnalysis.scan_ports] *)

Section PortScan.
Variable w : World.
Variable domain : string.

(** [scan_single_port], as the [i]-th submitted probe *)
Definition scan_single_port (i : nat) (port : Z) : outcome (Z * string) :=
  match connect_ex w i domain port with
  | Ret result =>
      if (result =? 0)%Z then Ret (port, "Open") else Ret (port, "Closed")
  | Raise e => Raise e
  end.

(** [results[port] = status] for the future with submission index [i];
    [future.result()] re-raises what the probe raised. *)
Definition record_port (futures : list (outcome (Z * string))) (i : nat)
  : Py.M (gmap Z string) unit :=
  match futures !! i with
  | Some (Ret (port, status)) => Py.modify (fun results => <[port := status]> results)
  | Some (Raise e) => Py.lift (Raise e)
  | None => Py.ret tt
  end.

Definition scan_ports (ports : list Z) : outcome (gmap Z string) :=
  let futures := imap scan_single_port ports in
  match Py.for_each (as_completed w (List.length futures)) (record_port futures) ∅ with
  | (Ret _, results) => Ret results
  | (Raise e, _) => Raise e
  end.

End PortScan.

(** ** [NetworkDiagnostics.speed_test] *)

Module Speed.
Record t : Type := Make {
  download : Q; upload : Q; ping : Q; error : option string
}.
Definition set_download (v : Q) (r : t) : t :=
  Make v (upload r) (ping r) (error r).
Definition set_upload (v : Q) (r : t) : t :=
  Make (download r) v (ping r) (error r).
Definition set_ping (v : Q) (r : t) : t :=
  Make (download r) (upload r) v (error r).
Definition set_error (v : string) (r : t) : t :=
  Make (download r) (upload r) (ping r) (Some v).

(** The [result] dictionary and how many times the clock was read. *)
Record state : Type := State { result : t; ticks : nat }.
Definition on_result (f : t -> t) (s : state) : state :=
  State (f (result s)) (ticks s).
End Speed.

Section SpeedTest.
Variable w : World.

(** [time.time()] *)
Definition time_time : Py.M Speed.state Q :=
  fun s => (Ret (clock w (Speed.ticks s)),
            Speed.State (Speed.result s) (S (Speed.ticks s))).

Definition download_size : Z := 10 * 1024 * 1024.
Definition upload_size : Z := 1 * 1024 * 1024.

(** The loop over [response.iter_content(chunk_size=1024)]. *)
Fixpoint consume (cs : list nat) (broken : option exn) (downloaded : Z)
  : outcome Z :=
  match cs with
  | [] =>
      match broken with
      | Some e => Raise e
      | None => Ret downloaded
      end
  | c :: cs' =>
      let downloaded' :=
        if (0 <? c)%nat then downloaded + Z.of_nat c else downloaded in
      if (download_size <=? downloaded')%Z then Ret downloaded'
      else consume cs' broken downloaded'
  end.

(** megabits per second of [bytes] moved in [seconds] *)
Definition mbps (bytes : Z) (seconds : Q) : outcome Q :=
  Conv.fdiv (inject_Z (bytes * 8)) (Conv.fmul seconds 1000000).

Definition speed_body : Py.M Speed.state unit :=
  let* start_time := time_time in
  let* _ := Py.lift (http_get w "https://www.google.com") in
  let* end_time := time_time in
  Py.modify (Speed.on_result
               (Speed.set_ping (Conv.fmul (Conv.fsub end_time start_time) 1000)));;;
  let* start_time := time_time in
  let* response :=
    Py.lift (http_get w "https://speed.cloudflare.com/__down?bytes=10000000") in
  let* downloaded := Py.lift (consume (chunks response) (broken response) 0) in
  let* end_time := time_time in
  let download_time := Conv.fsub end_time start_time in
  (if Qlt_le_dec 0 download_time then
     let* v := Py.lift (mbps downloaded download_time) in
     Py.modify (Speed.on_result (Speed.set_download v))
   else Py.ret tt);;;
  let* start_time := time_time in
  let* _ := Py.lift (http_post w "https://httpbin.org/post") in
  let* end_time := time_time in
  let upload_time := Conv.fsub end_time start_time in
  if Qlt_le_dec 0 upload_time then
    let* v := Py.lift (mbps upload_size upload_time) in
    Py.modify (Speed.on_result (Speed.set_upload v))
  else Py.ret tt.

Definition speed_test : outcome Speed.t :=
  match
    (Py.try_except speed_body
       (fun e => Py.modify (Speed.on_result (Speed.set_error (str_exn e))));;;
     Py.get)
      (Speed.State (Speed.Make 0 0 0 None) 0)
  with
  | (Ret s, _) => Ret (Speed.result s)
  | (Raise e, _) => Raise e
  end.

End SpeedTest.

(** A host with a working link: the clock advances one second per
    reading and the download arrives in [n] chunks of 1000 bytes. *)
Definition online_world (n : nat) : World :=
  {| system := "Linux";
     check_output := fun _ => Raise (Exn CalledProcessError "exit status 1");
     gethostbyaddr := fun _ => Raise (Exn OSError "Unknown host");
     getfqdn := fun ip => Ret ip;
     os_system := fun _ => 256;
     ip_network := fun s => Raise (Exn ValueError "invalid");
     as_completed := fun k => seq 0 k;
     connect_ex := fun _ _ _ => Ret 0;
     clock := fun k => inject_Z (Z.of_nat k);
     http_get := fun _ => Ret {| chunks := repeat 1000%nat n; broken := None |};
     http_post := fun _ => Ret tt |}.

(** ** What each operation asks of the platform *)

Definition latency_command (w : World) (host : string) : string :=
  if is_windows w then "ping " +:+ host +:+ " -n 10" else "ping -c 10 " +:+ host.

Definition latency_pattern (w : World) : Re.regex :=
  if is_windows w then Pat.win_latency else Pat.posix_latency.



Definition route_command (w : World) (host : string) : string :=
  if is_windows w then "tracert -d " +:+ host else "traceroute -n " +:+ host.

(** The all-zero "unavailable" value. *)
Definition is_sentinel (r : Latency.t) : Prop :=
  (Latency.min r == 0 /\ Latency.avg r == 0 /\ Latency.max r == 0)%Q.


(** What [\d+] captures. *)
Definition int_text (_ : nat) (p : string) : Prop :=
  Conv.all_digits p = true /\ p <> EmptyString.

(** A text [float] accepts. *)
Definition float_text (_ : nat) (p : string) : Prop :=
  exists q, Conv.py_float p = Ret q.

(** The group that holds the average, and the one that holds the maximum. *)
Definition avg_group (w : World) : nat := if is_windows w then 3%nat else 2%nat.
Definition max_group (w : World) : nat := if is_windows w then 2%nat else 3%nat.


Definition healthy_ping : string :=
  "rtt min/avg/max/mdev = 9.512/10.250/11.003/0.500 ms".


(** A POSIX host whose ping got no reply: the command exits with
    status 1 and [check_output] raises. *)
Definition unreachable_world : World :=
  posix_world (Raise (Exn CalledProcessError
    "Command 'ping -c 50 google.com' returned non-zero exit status 1.")).


(** A trace whose second hop line carries a sample that is not a number. *)
Definition posix_trace_with_bad_sample : string :=
  lines ["traceroute to example.org (10.9.9.9), 30 hops max, 60 byte packets";
         " 1  10.0.0.1  1.000 ms  1.200 ms  1.100 ms";
         " 2  10.0.0.2  1.2.3 ms  4.500 ms"].

(** What [tracert -d] prints when the second hop does not answer. *)
Definition windows_trace_with_silent_hop : string :=
  lines ["Tracing route to example.org [10.9.9.9]";
         "over a maximum of 30 hops:";
         "";
         "  1     1 ms     1 ms     1 ms  10.0.0.1";
         "  2     *        *        *     Request timed out.";
         "  3    12 ms    11 ms    13 ms  10.0.0.3";
         "";
         "Trace complete."].

(** The result is the failure entry alone. *)
Definition only_failure (o : outcome (list Hop.t)) : Prop :=
  exists text, o = Ret [Hop.failed text].

(** A POSIX host without the traceroute program. *)
Definition no_traceroute_world : World :=
  posix_world (Raise (Exn CalledProcessError
    "Command 'traceroute -n example.org' returned non-zero exit status 127.")).

(** The numeric keys of the devices exist and ascend in Python's order
    on lists of integers. *)
Definition keys_ascending (devices : list Device.t) : Prop :=
  exists keys,
    map_outcome ip_key devices = Ret keys /\
    StronglySorted (fun a b => key_le a b = true) keys.


(** * Further notions used to state properties of the code *)

(** ** Subnet scan: what is probed and what answers *)

(** The addresses [network_scan] probes: the first 254 hosts. *)
Definition scanned (all_hosts : list string) : list string :=
  take (Nat.min 254 (List.length all_hosts)) all_hosts.

(** The command [check_ip] builds for an address. *)
Definition probe_command (w : World) (ip_str : string) : string :=
  "ping " +:+ ping_param w +:+ " 1 -w 1 " +:+ ip_str.

(** The ping of [check_ip] exits with status 0. *)
Definition answers (w : World) (ip_str : string) : bool :=
  (os_system w (probe_command w ip_str +:+ " > /dev/null 2>&1") =? 0)%Z.

(** The entry [check_ip] returns for an address that answers. *)
Definition device_of (w : World) (ip_str : string) : Device.t :=
  Device.Make ip_str "Ativo"
    match getfqdn w ip_str with
    | Ret name => if String.eqb name ip_str then "N/A" else name
    | Raise _ => "N/A"
    end.

(** What the future of an address holds. *)
Definition probe_result (w : World) (ip_str : string) : option Device.t :=
  if answers w ip_str then Some (device_of w ip_str) else None.

(** The devices found, in the order the pool reports them. *)
Definition discovered (w : World) (hosts : list string) : list Device.t :=
  omap (fun i => mjoin (map (probe_result w) hosts !! i))
       (as_completed w (List.length hosts)).

(** Like [lan_world], with a pool that completes the probes in the
    reverse of the submission order. *)
Definition reversed_lan (valid : string -> bool) (hosts alive : list string)
  : World :=
  {| system := "Linux";
     check_output := fun _ => Raise (Exn CalledProcessError "exit status 1");
     gethostbyaddr := fun _ => Raise (Exn OSError "Unknown host");
     getfqdn := fun ip => Ret ip;
     os_system := fun cmd =>
       if existsb (fun ip =>
            String.eqb cmd ("ping -c 1 -w 1 " +:+ ip +:+ " > /dev/null 2>&1"))
            alive
       then 0 else 256;
     ip_network := fun s =>
       if valid s then Ret hosts
       else Raise (Exn ValueError
         (py_repr s +:+ " does not appear to be an IPv4 or IPv6 network"));
     as_completed := fun n => List.rev (seq 0 n);
     connect_ex := fun _ _ _ => Ret 111;
     clock := fun n => inject_Z (Z.of_nat n);
     http_get := fun _ => Raise (Exn RequestException "connection failed");
     http_post := fun _ => Raise (Exn RequestException "connection failed") |}.

(** ** Speed test *)

(** The two rates are not negative. *)
Definition speeds_nonneg (r : Speed.t) : Prop :=
  (0 <= Speed.download r)%Q /\ (0 <= Speed.upload r)%Q.

(** The three exchanges of [speed_test] all succeed: the two requests
    are answered, the download stream ends (or reaches its quota)
    without breaking, and the upload is accepted. *)
Definition exchanges_succeed (w : World) : Prop :=
  returns (http_get w "https://www.google.com") /\
  (exists resp,
     http_get w "https://speed.cloudflare.com/__down?bytes=10000000" = Ret resp /\
     returns (consume (chunks resp) (broken resp) 0)) /\
  returns (http_post w "https://httpbin.org/post").

(** The bytes of a run of chunks. *)
Definition total_bytes (cs : list nat) : Z :=
  foldr (fun c acc => Z.of_nat c + acc) 0 cs.

(** ** Route tracing *)

(** A hop is listed under its address, or under the name the reverse
    lookup of its dotted-quad address returned. *)
Definition host_explained (w : World) (h : Hop.t) : Prop :=
  Hop.host h = Hop.ip h \/
  (Re.re_match Pat.dotted_quad (Hop.ip h) <> None /\
   gethostbyaddr w (Hop.ip h) = Ret (Hop.host h)).

(** Every sample converts to a number between [lo] and [hi]. *)
Definition samples_within (lo hi : Q) (times : list string) : Prop :=
  Forall (fun t => exists v, Conv.py_float t = Ret v /\ (lo <= v <= hi)%Q) times.

(** A host on which the scanned domain does not resolve: every
    connection attempt raises [socket.gaierror]. *)
Definition unresolvable_world : World :=
  {| system := "Linux";
     check_output := fun _ => Raise (Exn CalledProcessError "exit status 2");
     gethostbyaddr := fun _ => Raise (Exn OSError "Unknown host");
     getfqdn := fun ip => Ret ip;
     os_system := fun _ => 512;
     ip_network := fun s => Raise (Exn ValueError "invalid");
     as_completed := fun n => seq 0 n;
     connect_ex := fun _ _ _ =>
       Raise (Exn OSError "[Errno -2] Name or service not known");
     clock := fun n => inject_Z (Z.of_nat n);
     http_get := fun _ => Raise (Exn RequestException "connection failed");
     http_post := fun _ => Raise (Exn RequestException "connection failed") |}.

(** * [WebsiteAnalysis]: the other operations *)

(** ** [ping_test] *)

Module WebPat.
Import Re.

(** [Lost = (\d+)] *)
Definition win_lost : regex := Pat.cat [Lit "Lost = "; Grp 1 Pat.digits].

(** [(\d+)% packet loss] *)
Definition posix_loss_percent : regex :=
  Pat.cat [Grp 1 Pat.digits; Lit "% packet loss"].

End WebPat.

Module Ping.
(** A number of the result: an [int] or a [float]. *)
Inductive num : Type := Int (z : Z) | Float (q : Q).
Definition value (n : num) : Q :=
  match n with Int z => inject_Z z | Float q => q end.

Record t : Type := Make {
  min : num; avg : num; max : num; packet_loss : Z; error : option string
}.
Definition set_min (v : num) (r : t) : t :=
  Make v (avg r) (max r) (packet_loss r) (error r).
Definition set_avg (v : num) (r : t) : t :=
  Make (min r) v (max r) (packet_loss r) (error r).
Definition set_max (v : num) (r : t) : t :=
  Make (min r) (avg r) v (packet_loss r) (error r).
Definition set_packet_loss (v : Z) (r : t) : t :=
  Make (min r) (avg r) (max r) v (error r).
(** [{"min": 0, "avg": 0, "max": 0, "packet_loss": 0}] *)
Definition initial : t := Make (Int 0) (Int 0) (Int 0) 0 None.
(** the dictionary built by the [except] clause *)
Definition failed (text : string) : t :=
  Make (Int 0) (Int 0) (Int 0) 100 (Some text).
End Ping.

Section PingTest.
Variable w : World.
Variable domain : string.

Definition ping_test_body : Py.M Ping.t unit :=
  if is_windows w then
    let* output := Py.lift (check_output w ("ping " +:+ domain +:+ " -n 4")) in
    match Re.search WebPat.win_lost output with
    | Some m =>
        let* v := Py.lift (Conv.py_int (Re.group m 1)) in
        Py.modify (Ping.set_packet_loss (v * 25))
    | None => Py.ret tt
    end;;;
    match Re.search Pat.win_latency output with
    | Some m =>
        let* v := Py.lift (Conv.py_int (Re.group m 1)) in
        Py.modify (Ping.set_min (Ping.Int v));;;
        let* v := Py.lift (Conv.py_int (Re.group m 2)) in
        Py.modify (Ping.set_max (Ping.Int v));;;
        let* v := Py.lift (Conv.py_int (Re.group m 3)) in
        Py.modify (Ping.set_avg (Ping.Int v))
    | None => Py.ret tt
    end
  else
    let* output := Py.lift (check_output w ("ping -c 4 " +:+ domain)) in
    match Re.search WebPat.posix_loss_percent output with
    | Some m =>
        let* v := Py.lift (Conv.py_int (Re.group m 1)) in
        Py.modify (Ping.set_packet_loss v)
    | None => Py.ret tt
    end;;;
    match Re.search Pat.posix_latency output with
    | Some m =>
        let* v := Py.lift (Conv.py_float (Re.group m 1)) in
        Py.modify (Ping.set_min (Ping.Float v));;;
        let* v := Py.lift (Conv.py_float (Re.group m 2)) in
        Py.modify (Ping.set_avg (Ping.Float v));;;
        let* v := Py.lift (Conv.py_float (Re.group m 3)) in
        Py.modify (Ping.set_max (Ping.Float v))
    | None => Py.ret tt
    end.

(** [WebsiteAnalysis.ping_test] *)
Definition ping_test : outcome Ping.t :=
  fst ((Py.try_except ping_test_body
          (fun e => Py.modify (fun _ => Ping.failed (str_exn e)));;;
        Py.get)
         Ping.initial).

End PingTest.

Definition ping_command (w : World) (domain : string) : string :=
  if is_windows w then "ping " +:+ domain +:+ " -n 4"
  else "ping -c 4 " +:+ domain.

Definition ping_loss_pattern (w : World) : Re.regex :=
  if is_windows w then WebPat.win_lost else WebPat.posix_loss_percent.

(** What [ping_test] makes of the number captured by the loss pattern. *)
Definition ping_loss_of (w : World) (count : Z) : Z :=
  if is_windows w then count * 25 else count.

(** ** [get_dns_records] *)

Section DnsRecords.
(** [[str(answer) for answer in dns.resolver.resolve(domain, record_type)]] *)
Variable resolve : string -> string -> outcome (list string).
Variable domain : string.

Definition record_types : list string :=
  ["A"; "AAAA"; "MX"; "TXT"; "NS"; "CNAME"].

Definition dns_lookup (record_type : string)
  : Py.M (gmap string (list string)) unit :=
  Py.try_except
    (let* answers := Py.lift (resolve domain record_type) in
     Py.modify (fun recs => <[record_type := answers]> recs))
    (fun _ => Py.modify (fun recs => <[record_type := ["No records found"]]> recs)).

(** [WebsiteAnalysis.get_dns_records] *)
Definition get_dns_records : outcome (gmap string (list string)) :=
  match Py.for_each record_types dns_lookup ∅ with
  | (Ret _, dns_records) => Ret dns_records
  | (Raise e, _) => Raise e
  end.

(** The entry of a record type: the answers, or the placeholder. *)
Definition dns_entry (record_type : string) : list string :=
  match resolve domain record_type with
  | Ret answers => answers
  | Raise _ => ["No records found"]
  end.

End DnsRecords.

(** * [modules/export.py]: flattening and text rendering of results *)

Module Data.

(** A dictionary key of the results: a text or an integer (a port). *)
Inductive key : Type := KStr (s : string) | KInt (z : Z).

(** [str(k)] *)
Definition key_str (k : key) : string :=
  match k with KStr s => s | KInt z => Text.of_Z z end.

(** [bool(k)]: the empty text and the integer 0 are false. *)
Definition truthy (k : key) : bool :=
  match k with
  | KStr s => negb (String.eqb s EmptyString)
  | KInt z => negb (z =? 0)%Z
  end.

Definition key_eqb (a b : key) : bool :=
  match a, b with
  | KStr s, KStr t => String.eqb s t
  | KInt x, KInt y => (x =? y)%Z
  | _, _ => false
  end.

(** What is neither a dictionary nor a list. *)
Inductive atom : Type :=
| ANone
| ABool (b : bool)
| AInt (z : Z)
| AFloat (q : Q)
| AStr (s : string).

(** A result value.  A dictionary is the list of its items in insertion
    order. *)
Unset Elimination Schemes.
Inductive value : Type :=
| Scalar (a : atom)
| Dict (items : list (key * value))
| List (items : list value).
Set Elimination Schemes.

(** Induction on values, with the hypothesis for every item of a
    dictionary and of a list. *)
Fixpoint value_ind (P : value -> Prop)
  (HS : forall a, P (Scalar a))
  (HD : forall items, Forall (fun kv => P (snd kv)) items -> P (Dict items))
  (HL : forall items, Forall P items -> P (List items))
  (v : value) {struct v} : P v :=
  match v with
  | Scalar a => HS a
  | Dict items =>
      HD items
        ((fix all (its : list (key * value))
            : Forall (fun kv => P (snd kv)) its :=
            match its with
            | [] => @List.Forall_nil _ _
            | (k, v') :: its' =>
                @List.Forall_cons _ _ (k, v') its'
                  (value_ind P HS HD HL v') (all its')
            end) items)
  | List items =>
      HL items
        ((fix all (l : list value) : Forall P l :=
            match l with
            | [] => @List.Forall_nil _ _
            | x :: l' =>
                @List.Forall_cons _ _ x l' (value_ind P HS HD HL x) (all l')
            end) items)
  end.

Definition is_dict (v : value) : bool :=
  match v with Dict _ => true | _ => false end.
Definition is_list (v : value) : bool :=
  match v with List _ => true | _ => false end.
Definition is_scalar (v : value) : bool :=
  match v with Scalar _ => true | _ => false end.

(** [d[k] = v] on the items of a dictionary: an existing key keeps its
    place. *)
Fixpoint dict_set (k : key) (v : value) (d : list (key * value))
  : list (key * value) :=
  match d with
  | [] => [(k, v)]
  | (k', v') :: d' =>
      if key_eqb k k' then (k', v) :: d' else (k', v') :: dict_set k v d'
  end.

(** [dict(items).items()] *)
Definition dict_of_items (items : list (key * value)) : list (key * value) :=
  foldl (fun d kv => dict_set (fst kv) (snd kv) d) [] items.

Section Flatten.
Variable sep : string.

(** [f"{parent_key}{sep}{k}" if parent_key else k] *)
Definition child_key (parent_key k : key) : key :=
  if truthy parent_key
  then KStr (key_str parent_key +:+ sep +:+ key_str k)
  else k.

(** [f"{new_key}{sep}{i}"] *)
Definition index_key (new_key : key) (i : nat) : key :=
  KStr (key_str new_key +:+ sep +:+ Text.of_Z (Z.of_nat i)).

(** [flatten_entry new_key v]: the items one entry of a dictionary
    contributes, [new_key] being the key computed for it; for a
    dictionary [v] these are [flatten_dict(v, new_key, sep).items()]. *)
Fixpoint flatten_entry (new_key : key) (v : value) {struct v}
  : list (key * value) :=
  match v with
  | Dict items =>
      dict_of_items
        ((fix each (its : list (key * value)) : list (key * value) :=
            match its with
            | [] => []
            | (k, v') :: its' =>
                flatten_entry (child_key new_key k) v' ++ each its'
            end) items)
  | List l =>
      (fix each (i : nat) (l : list value) : list (key * value) :=
         match l with
         | [] => []
         | item :: l' =>
             (if is_dict item then flatten_entry (index_key new_key i) item
              else [(index_key new_key i, item)])
             ++ each (S i) l'
         end) 0%nat l
  | Scalar _ => [(new_key, v)]
  end.

(** [flatten_dict(d, parent_key, sep)] *)
Definition flatten_dict (d : list (key * value)) (parent_key : key)
  : list (key * value) :=
  flatten_entry parent_key (Dict d).

End Flatten.

Section WriteText.
(** [f"{x}"] for a value that is not a dictionary *)
Variable fmt : value -> string.

Fixpoint spaces (n : nat) : string :=
  match n with
  | O => EmptyString
  | S n' => String " "%char (spaces n')
  end.

(** The texts [write_dict_to_text(file, d, indent)] passes to
    [file.write], in order, for one entry [(k, v)] of [d]. *)
Fixpoint write_entry (indent : nat) (k : key) (v : value) {struct v}
  : list string :=
  match v with
  | Dict items =>
      (spaces indent +:+ key_str k +:+ ":" +:+ nl)
      :: (fix each (its : list (key * value)) : list string :=
            match its with
            | [] => []
            | (k', v') :: its' => write_entry (indent + 2) k' v' ++ each its'
            end) items
  | List l =>
      (spaces indent +:+ key_str k +:+ ":" +:+ nl)
      :: (fix each (l : list value) : list string :=
            match l with
            | [] => []
            | item :: l' =>
                match item with
                | Dict its =>
                    (fix each' (its : list (key * value)) : list string :=
                       match its with
                       | [] => []
                       | (k', v') :: its' =>
                           write_entry (indent + 2) k' v' ++ each' its'
                       end) its
                | _ => [spaces (indent + 2) +:+ "- " +:+ fmt item +:+ nl]
                end ++ each l'
            end) l
  | Scalar _ => [spaces indent +:+ key_str k +:+ ": " +:+ fmt v +:+ nl]
  end.

(** [write_dict_to_text(file, d, indent)] *)
Fixpoint write_dict_to_text (d : list (key * value)) (indent : nat)
  : list string :=
  match d with
  | [] => []
  | (k, v) :: d' => write_entry indent k v ++ write_dict_to_text d' indent
  end.

End WriteText.

End Data.

(** Plain rendering of the values, for the sample runs. *)
Definition plain_fmt (v : Data.value) : string :=
  match v with
  | Data.Scalar (Data.AStr s) => s
  | Data.Scalar (Data.AInt z) => Text.of_Z z
  | Data.Scalar Data.ANone => "None"
  | Data.Scalar (Data.ABool true) => "True"
  | Data.Scalar (Data.ABool false) => "False"
  | _ => "?"
  end.

(** Results of a website analysis, as the menu collects them. *)
Definition sample_results : list (Data.key * Data.value) :=
  [(Data.KStr "Domain IP",
    Data.Dict [(Data.KStr "IPv4", Data.Scalar (Data.AStr "93.184.216.34"));
               (Data.KStr "IPv6", Data.Scalar (Data.AStr "Not available"))]);
   (Data.KStr "Port Scan",
    Data.Dict [(Data.KInt 80, Data.Scalar (Data.AStr "Open"));
               (Data.KInt 443, Data.Scalar (Data.AStr "Closed"))]);
   (Data.KStr "DNS Records",
    Data.Dict [(Data.KStr "A",
                Data.List [Data.Scalar (Data.AStr "93.184.216.34")])])].

(** The key is a text that begins with [p]. *)
Definition prefixed (p : string) (k : Data.key) : Prop :=
  exists r, k = Data.KStr (p +:+ r).

(** The text is a line indented by at least [indent] blanks. *)
Definition indented_line (indent : nat) (t : string) : Prop :=
  exists r, t = Data.spaces indent +:+ r +:+ nl.

(** * [modules/system_info.py] *)

(** ** [get_mac_address] *)

Module Mac.

Definition hexdigit (d : Z) : ascii :=
  match d with
  | 0 => "0" | 1 => "1" | 2 => "2" | 3 => "3" | 4 => "4" | 5 => "5"
  | 6 => "6" | 7 => "7" | 8 => "8" | 9 => "9" | 10 => "a" | 11 => "b"
  | 12 => "c" | 13 => "d" | 14 => "e" | _ => "f"
  end%char.

(** ['{:02x}'.format(b)] for [0 <= b < 256], which every argument here
    is, being masked with [0xff]. *)
Definition format_02x (b : Z) : string :=
  String (hexdigit (b / 16)) (String (hexdigit (b mod 16)) EmptyString).

(** [sep.join(parts)] *)
Fixpoint join (sep : string) (parts : list string) : string :=
  match parts with
  | [] => EmptyString
  | [p] => p
  | p :: parts' => p +:+ sep +:+ join sep parts'
  end.

(** [range(0, 8 * 6, 8)] *)
Definition shifts : list Z := [0; 8; 16; 24; 32; 40].

(** [SystemInfo.get_mac_address], [mac] being what [uuid.getnode()]
    returned. *)
Definition get_mac_address (mac : Z) : string :=
  join ":"
    (List.rev (map (fun elements =>
                      format_02x (Z.land (Z.shiftr mac elements) 255))
                   shifts)).

End Mac.

(** * Properties *)

(** ** Sample runs *)

Example search_sample :
  option_map (fun f => Re.group f 1)
    (Re.search (Re.Seq (Re.Grp 1 (Re.Plus Re.digit)) (Re.Lit " ms")) "ab 12 ms")
  = Some "12".
Proof. vm_compute. reflexivity. Qed.

Example py_float_sample :
  (Conv.py_float "12.50", Conv.py_float "7", Conv.py_float "3.",
   Conv.py_float ".5", Conv.py_float "1.2.3", Conv.py_float ".",
   Conv.py_float "*")
  = (Ret (25 # 2)%Q, Ret (7 # 1)%Q, Ret (3 # 1)%Q, Ret (1 # 2)%Q,
     Raise (Exn ValueError "could not convert string to float: '1.2.3'"),
     Raise (Exn ValueError "could not convert string to float: '.'"),
     Raise (Exn ValueError "could not convert string to float: '*'")).
Proof. vm_compute. reflexivity. Qed.

Example py_int_sample :
  (Conv.py_int "254", Conv.py_int " -1_0 ", Conv.py_int "fe80::1")
  = (Ret 254, Ret (-10),
     Raise (Exn ValueError "invalid literal for int() with base 10: 'fe80::1'")).
Proof. vm_compute. reflexivity. Qed.

Example posix_hop_sample :
  let m := Re.search Pat.posix_hop " 3  10.0.0.1  1.234 ms * 2.345 ms" in
  (option_map (fun f => (Re.group f 1, Re.group f 2)) m,
   Re.findall Pat.sample " 3  10.0.0.1  1.234 ms * 2.345 ms",
   option_map (fun f => Re.group f 1) (Re.search Pat.posix_hop " 2  * * *"))
  = (Some ("3", "10.0.0.1"), ["1.234"; "2.345"], None).
Proof. vm_compute. reflexivity. Qed.

Example win_hop_sample :
  (option_map (fun f => (Re.group f 2, Re.group f 3, Re.group f 4, Re.group f 5))
     (Re.search Pat.win_hop "  1    12 ms     *  ms    14 ms  192.168.1.1"),
   option_map (fun f => Re.group f 1)
     (Re.search Pat.win_hop "  2     *        *        *     Request timed out."))
  = (Some ("12", "*", "14", "192.168.1.1"), None).
Proof. vm_compute. reflexivity. Qed.

Example packet_loss_sample :
  (packet_loss_analysis
     (posix_world (Ret ("--- google.com ping statistics ---" +:+ nl +:+
        "10 packets transmitted, 8 packets received, 20% packet loss")))
     "google.com" 10,
   packet_loss_analysis
     (posix_world (Ret ("3 packets transmitted, 2 received, 33% packet loss, time 2003ms")))
     "google.com" 3,
   packet_loss_analysis (posix_world (Ret "0 packets transmitted, 0 received"))
     "google.com" 0,
   packet_loss_analysis
     (windows_world (Ret "    Packets: Sent = 4, Received = 3, Lost = 1 (25% loss),"))
     "google.com" 4)
  = (Ret (PacketLoss.Make 10 8 2 20 None),
     Ret (PacketLoss.Make 3 2 1 (100 # 3) None),
     Ret (PacketLoss.Make 0 0 0 100 (Some "division by zero")),
     Ret (PacketLoss.Make 4 3 1 25 None)).
Proof. vm_compute. reflexivity. Qed.

Example latency_sample :
  (latency_check
     (posix_world (Ret "rtt min/avg/max/mdev = 9.512/10.250/11.003/0.500 ms"))
     "google.com",
   latency_check
     (windows_world (Ret "    Minimum = 10ms, Maximum = 14ms, Average = 12ms"))
     "google.com",
   latency_check (posix_world (Ret "ping: unknown output")) "google.com")
  = (Ret (Latency.Make (1189 # 125) (41 # 4) (11003 # 1000) None),
     Ret (Latency.Make 10 12 14 None),
     Ret Latency.unavailable).
Proof. vm_compute. reflexivity. Qed.

Example network_scan_sample :
  (network_scan sample_lan "10.0.0.0/23",
   network_scan sample_lan "not-a-subnet",
   network_scan_dispatched sample_lan "not-a-subnet")
  = (Ret (Scan.Make None
            [Device.Make "10.0.0.2" "Ativo" "N/A";
             Device.Make "10.0.0.10" "Ativo" "N/A";
             Device.Make "10.0.1.1" "Ativo" "N/A"] 4 (Some 3)),
     Ret (Scan.Make (Some ("Subrede inv" +:+ String "225"%char "lida: not-a-subnet"))
            [] 0 None),
     []).
Proof. vm_compute. reflexivity. Qed.

Example scan_ports_sample :
  (scan_ports (posix_world (Ret "")) "example.org" [80; 443; 8080],
   scan_ports (posix_world (Ret "")) "example.org" [80; 80])
  = (Ret (<[8080 := "Closed"]> (<[443 := "Closed"]> (<[80 := "Closed"]> ∅))),
     Ret (<[80 := "Closed"]> ∅)).
Proof. vm_compute. reflexivity. Qed.

Example speed_test_sample :
  (speed_test (online_world 500), speed_test (posix_world (Ret "")))
  = (Ret (Speed.Make 4 (131072 # 15625) 1000 None),
     Ret (Speed.Make 0 0 0 (Some "connection failed"))).
Proof. vm_compute. reflexivity. Qed.

(** ** The monad's laws used below *)

Ltac py_unfold :=
  unfold Py.bind, Py.try_except, Py.lift, Py.modify, Py.get, Py.ret in *.

(** A loop whose body never raises never raises. *)
Lemma for_each_returns {St A} (xs : list A) (body : A -> Py.M St unit) :
  (forall x s, exists s', body x s = (Ret tt, s')) ->
  forall s, exists s', Py.for_each xs body s = (Ret tt, s').
Proof.
  intros Hbody. induction xs as [|x xs IH]; intros s; simpl.
  - eexists. reflexivity.
  - unfold Py.bind. destruct (Hbody x s) as [s' ->]. apply IH.
Qed.

(** ** Latency *)

Lemma latency_body_not_found w host output :
  check_output w (latency_command w host) = Ret output ->
  Re.search (latency_pattern w) output = None ->
  latency_body w host Latency.unavailable = (Ret tt, Latency.unavailable).
Proof.
  unfold latency_command, latency_pattern, latency_body.
  destruct (is_windows w); intros Hout Hnone; py_unfold;
    rewrite Hout, Hnone; reflexivity.
Qed.

(** C7.  When the ping output does not contain the summary line of the
    host's OS family, [latency_check] returns (it does not raise) the
    zero-valued result: min = avg = max = 0.0 and no error field. *)
Theorem latency_check_pattern_not_found w host output :
  check_output w (latency_command w host) = Ret output ->
  Re.search (latency_pattern w) output = None ->
  latency_check w host = Ret Latency.unavailable.
Proof.
  intros Hout Hnone. unfold latency_check.
  unfold Py.bind at 1. unfold Py.try_except.
  rewrite (latency_body_not_found w host output Hout Hnone). reflexivity.
Qed.

Lemma latency_check_pattern_not_found_witness :
  let w := posix_world (Ret "ping: sendmsg: Network is unreachable") in
  check_output w (latency_command w "google.com")
    = Ret "ping: sendmsg: Network is unreachable" /\
  Re.search (latency_pattern w) "ping: sendmsg: Network is unreachable" = None /\
  latency_check w "google.com" = Ret Latency.unavailable.
Proof.
  intros w. split; [reflexivity|]. split; [vm_compute; reflexivity|].
  apply (latency_check_pattern_not_found w "google.com"
           "ping: sendmsg: Network is unreachable");
    [reflexivity | vm_compute; reflexivity].
Defined.

(** ** The matcher only reports what the pattern allows *)

Section Strings.

Lemma append_cons (c : ascii) (a b : string) :
  String c a +:+ b = String c (a +:+ b).
Proof. reflexivity. Qed.

Lemma append_nil_l (s : string) : EmptyString +:+ s = s.
Proof. reflexivity. Qed.

Lemma append_nil_r (s : string) : s +:+ EmptyString = s.
Proof.
  induction s as [|c s IH]; [reflexivity|]. rewrite append_cons, IH. reflexivity.
Qed.

Lemma append_assoc (a b c : string) : (a +:+ b) +:+ c = a +:+ (b +:+ c).
Proof.
  induction a as [|x a IH]; [reflexivity|].
  rewrite !append_cons, IH. reflexivity.
Qed.

Lemma length_append (a b : string) :
  String.length (a +:+ b) = (String.length a + String.length b)%nat.
Proof.
  induction a as [|x a IH]; [reflexivity|].
  rewrite append_cons. simpl. rewrite IH. reflexivity.
Qed.

Lemma take_append (a b : string) : Text.take (String.length a) (a +:+ b) = a.
Proof.
  induction a as [|c a IH].
  - rewrite append_nil_l. destruct b; reflexivity.
  - rewrite append_cons. simpl. rewrite IH. reflexivity.
Qed.

Lemma consumed_append (a b : string) : Text.consumed (a +:+ b) b = a.
Proof.
  unfold Text.consumed. rewrite length_append.
  replace (String.length a + String.length b - String.length b)%nat
    with (String.length a) by lia.
  apply take_append.
Qed.

End Strings.

Section Soundness.
Import Re.
Variable P : nat -> string -> Prop.

Lemma rep_loop_sound (r : regex) (total : nat) (k : cont) :
  (forall s g k' f, good P g -> run r total s g k' = Some f ->
                    handed_over P r s g k' f) ->
  forall fuel s g f,
    good P g -> rep_loop (run r total) k fuel s g = Some f ->
    handed_over P (Rep r) s g k f.
Proof.
  intros IH. induction fuel as [|fuel IHfuel]; intros s g f Hg Hrun;
    simpl in Hrun.
  - destruct (run r total s g _) as [f'|] eqn:Hbody.
    + apply IH in Hbody as (p & s' & g' & _ & _ & _ & _ & Hk); [|exact Hg].
      destruct (_ <? _)%nat; discriminate.
    + exists EmptyString, s, g. repeat split; auto using lang_rep_nil.
      intros n [H|[]]; exact H.
  - destruct (run r total s g _) as [f'|] eqn:Hbody.
    + injection Hrun as ->.
      apply IH in Hbody as (p & s' & g' & -> & Hp & Hg' & Hdef & Hk); [|exact Hg].
      destruct (_ <? _)%nat; [|discriminate].
      apply IHfuel in Hk as (p2 & s2 & g2 & -> & Hp2 & Hg2 & Hdef2 & Hk2);
        [|exact Hg'].
      exists (p +:+ p2), s2, g2. rewrite append_assoc.
      repeat split; auto using lang_rep_cons.
      intros n [H|[]]. apply Hdef2. left. apply Hdef. left. exact H.
    + exists EmptyString, s, g. repeat split; auto using lang_rep_nil.
      intros n [H|[]]; exact H.
Qed.

Lemma run_sound (r : regex) :
  captures P r ->
  forall total s g k f,
    good P g -> run r total s g k = Some f -> handed_over P r s g k f.
Proof.
  induction r as [|p|r1 IH1 r2 IH2|r1 IH1 r2 IH2|r IH|n r IH| |];
    intros Hcap total s g k f Hg Hrun; simpl in Hrun.
  - exists EmptyString, s, g. repeat split; auto using lang_nil.
    intros n [H|[]]; exact H.
  - destruct s as [|c s']; [discriminate|].
    destruct (p c) eqn:Hc; [|discriminate].
    exists (String c EmptyString), s', g. repeat split; auto using lang_cls.
    intros n [H|[]]; exact H.
  - destruct Hcap as [Hc1 Hc2].
    apply (IH1 Hc1) in Hrun as (p1 & s1 & g1 & -> & Hp1 & Hg1 & Hd1 & Hk1);
      [|exact Hg].
    apply (IH2 Hc2) in Hk1 as (p2 & s2 & g2 & -> & Hp2 & Hg2 & Hd2 & Hk2);
      [|exact Hg1].
    exists (p1 +:+ p2), s2, g2. rewrite append_assoc.
    repeat split; auto using lang_seq.
    intros n [H|H]; simpl in H.
    + apply Hd2. left. apply Hd1. left. exact H.
    + apply in_app_or in H as [H|H].
      * apply Hd2. left. apply Hd1. right. exact H.
      * apply Hd2. right. exact H.
  - destruct Hcap as [Hc1 Hc2].
    destruct (run r1 total s g k) as [f'|] eqn:H1.
    + injection Hrun as ->.
      apply (IH1 Hc1) in H1 as (p1 & s1 & g1 & -> & Hp1 & Hg1 & Hd1 & Hk1);
        [|exact Hg].
      exists p1, s1, g1. repeat split; auto using lang_or_l.
      intros n [H|[]]. apply Hd1. left. exact H.
    + apply (IH2 Hc2) in Hrun as (p2 & s2 & g2 & -> & Hp2 & Hg2 & Hd2 & Hk2);
        [|exact Hg].
      exists p2, s2, g2. repeat split; auto using lang_or_r.
      intros n [H|[]]. apply Hd2. left. exact H.
  - eapply rep_loop_sound; eauto.
  - destruct Hcap as [Hn Hc].
    apply (IH Hc) in Hrun as (p1 & s1 & g1 & -> & Hp1 & Hg1 & Hd1 & Hk1);
      [|exact Hg].
    rewrite consumed_append in Hk1.
    exists p1, s1, (<[n := p1]> g1). repeat split; auto using lang_grp.
    + intros m q. destruct (decide (n = m)) as [->|Hne].
      * rewrite lookup_insert_eq. intros [= <-]. auto.
      * rewrite lookup_insert_ne by exact Hne. apply Hg1.
    + intros m Hm. destruct (decide (n = m)) as [->|Hne].
      * rewrite lookup_insert_eq. eauto.
      * rewrite lookup_insert_ne by exact Hne. apply Hd1.
        destruct Hm as [Hm|[Hm|Hm]]; [left|congruence|right]; auto.
  - destruct (_ =? _)%nat; [|discriminate].
    exists EmptyString, s, g. repeat split; auto using lang_bol.
    intros n [H|[]]; exact H.
  - assert (k s g = Some f) as Hk.
    { destruct s as [|c [|]]; try discriminate; auto.
      destruct (Text.ascii_eqb c _); [auto|discriminate]. }
    exists EmptyString, s, g. repeat split; auto using lang_eol.
    intros n [H|[]]; exact H.
Qed.

Lemma good_empty : good P ∅.
Proof. intros n p. rewrite lookup_empty. discriminate. Qed.

Lemma search_from_sound (r : regex) (total : nat) (s : string) (f : found) :
  captures P r -> search_from r total s = Some f ->
  forall n, In n (assigned r) -> exists p, caps f !! n = Some p /\ P n p.
Proof.
  intros Hcap. induction s as [|c s IH]; simpl; intros Hs n Hn.
  - destruct (run r total EmptyString ∅ accept) as [f'|] eqn:Hrun;
      [|discriminate].
    injection Hs as ->.
    apply (run_sound r Hcap) in Hrun as (p & s' & g' & _ & _ & Hg & Hd & Hk);
      [|apply good_empty].
    injection Hk as <-. simpl.
    destruct (Hd n (or_intror Hn)) as [q Hq]. eauto.
  - destruct (run r total (String c s) ∅ accept) as [f'|] eqn:Hrun.
    + injection Hs as ->.
      apply (run_sound r Hcap) in Hrun as (p & s' & g' & _ & _ & Hg & Hd & Hk);
        [|apply good_empty].
      injection Hk as <-. simpl.
      destruct (Hd n (or_intror Hn)) as [q Hq]. eauto.
    + auto.
Qed.

(** A group that is always set holds a text its sub-pattern allows. *)
Lemma search_group (r : regex) (s : string) (f : found) (n : nat) :
  captures P r -> search r s = Some f -> In n (assigned r) -> P n (group f n).
Proof.
  intros Hcap Hs Hn.
  destruct (search_from_sound r _ s f Hcap Hs n Hn) as (p & Hp & HP).
  unfold group. rewrite Hp. exact HP.
Qed.

End Soundness.

(** ** Captured numbers convert *)

Section Numbers.
Import Re.

Lemma digit_facts (c : ascii) :
  Text.isdigit c = true ->
  Text.isspace c = false /\ Text.ascii_eqb c "."%char = false /\
  Text.ascii_eqb c "_"%char = false /\
  c <> "+"%char /\ c <> "-"%char.
Proof.
  destruct c as [[] [] [] [] [] [] [] []]; vm_compute; intros H;
    try discriminate H; repeat split; congruence.
Qed.

Lemma rev_onto_twice (s a b : string) :
  Text.rev_onto (Text.rev_onto s a) b = Text.rev_onto a (s +:+ b).
Proof.
  revert a b. induction s as [|c s IH]; intros a b; simpl.
  - reflexivity.
  - rewrite IH. reflexivity.
Qed.

Lemma rev_rev (s : string) : Text.rev (Text.rev s) = s.
Proof. unfold Text.rev. rewrite rev_onto_twice. simpl. apply append_nil_r. Qed.

Lemma all_digits_rev_onto (s a : string) :
  Conv.all_digits (Text.rev_onto s a) = Conv.all_digits s && Conv.all_digits a.
Proof.
  revert a. induction s as [|c s IH]; intros a; simpl.
  - reflexivity.
  - rewrite IH. simpl. destruct (Text.isdigit c), (Conv.all_digits s); reflexivity.
Qed.

Lemma lstrip_digits (s : string) :
  Conv.all_digits s = true -> Text.lstrip s = s.
Proof.
  destruct s as [|c s]; simpl; [reflexivity|].
  intros H. apply andb_true_iff in H as [Hc _].
  destruct (digit_facts c Hc) as [-> _]. reflexivity.
Qed.

Lemma strip_digits (s : string) :
  Conv.all_digits s = true -> Text.strip s = s.
Proof.
  intros H. unfold Text.strip. rewrite (lstrip_digits s H).
  rewrite lstrip_digits, rev_rev; [reflexivity|].
  unfold Text.rev. rewrite all_digits_rev_onto, H. reflexivity.
Qed.

Lemma int_body_digits (s : string) (acc : Z) :
  Conv.all_digits s = true ->
  Conv.int_body s acc true = Some (Conv.digits_val s acc).
Proof.
  revert acc. induction s as [|c s IH]; intros acc H; simpl in *.
  - reflexivity.
  - apply andb_true_iff in H as [Hc Hs]. rewrite Hc. apply IH, Hs.
Qed.

(** [int] accepts a non-empty run of digits. *)
Lemma py_int_digits (s : string) :
  Conv.all_digits s = true -> s <> EmptyString ->
  Conv.py_int s = Ret (Conv.digits_val s 0).
Proof.
  intros H Hne. unfold Conv.py_int, Conv.int_literal.
  rewrite (strip_digits s H).
  destruct s as [|c s]; [congruence|].
  assert (Conv.int_body (String c s) 0 false
          = Some (Conv.digits_val (String c s) 0)) as Hbody.
  { simpl in *. apply andb_true_iff in H as [Hc Hs]. rewrite Hc.
    apply int_body_digits, Hs. }
  simpl in H. apply andb_true_iff in H as [Hc _].
  destruct (digit_facts c Hc) as (_ & _ & _ & Hplus & Hminus).
  destruct c as [[] [] [] [] [] [] [] []]; try congruence;
    rewrite Hbody; reflexivity.
Qed.

Lemma digits_val_nonneg (s : string) (acc : Z) :
  Conv.all_digits s = true -> 0 <= acc -> 0 <= Conv.digits_val s acc.
Proof.
  revert acc. induction s as [|c s IH]; intros acc H Hacc; simpl in *.
  - exact Hacc.
  - apply andb_true_iff in H as [Hc Hs]. apply IH; [exact Hs|].
    unfold Text.isdigit in Hc. unfold Text.digit_val.
    apply andb_true_iff in Hc as [Hlo _]. apply N.leb_le in Hlo. lia.
Qed.

Lemma split_dot_digits (s : string) :
  Conv.all_digits s = true -> Conv.split_dot s = (s, None).
Proof.
  induction s as [|c s IH]; simpl; intros H; [reflexivity|].
  apply andb_true_iff in H as [Hc Hs].
  destruct (digit_facts c Hc) as (_ & -> & _). rewrite (IH Hs). reflexivity.
Qed.

Lemma split_dot_decimal (a b : string) (d : ascii) :
  Conv.all_digits a = true -> Text.ascii_eqb d "."%char = true ->
  Conv.split_dot (a +:+ String d b) = (a, Some b).
Proof.
  intros Ha Hd. induction a as [|c a IH].
  - rewrite append_nil_l. simpl. rewrite Hd. reflexivity.
  - rewrite append_cons. simpl in *. apply andb_true_iff in Ha as [Hc Ha].
    destruct (digit_facts c Hc) as (_ & -> & _). rewrite (IH Ha). reflexivity.
Qed.

Lemma length_nonempty (s : string) :
  s <> EmptyString -> (String.length s =? 0)%nat = false.
Proof. destruct s; [congruence|reflexivity]. Qed.

(** [float] accepts a non-empty run of digits. *)
Lemma py_float_digits (s : string) :
  Conv.all_digits s = true -> s <> EmptyString ->
  Conv.py_float s = Ret (inject_Z (Conv.digits_val s 0)).
Proof.
  intros H Hne. unfold Conv.py_float, Conv.float_literal.
  rewrite (split_dot_digits s H), H, (length_nonempty s Hne). reflexivity.
Qed.

(** The texts [\d] can repeat over. *)
Lemma lang_rep_digit (p : string) :
  lang (Rep digit) p -> Conv.all_digits p = true.
Proof.
  intros H. remember (Rep digit) as r eqn:Hr.
  induction H as [| | | | | |r a b Ha _ Hb IH| | |]; try discriminate Hr.
  - reflexivity.
  - injection Hr as ->. inversion Ha as [|q c Hc| | | | | | | |]; subst.
    rewrite append_cons, append_nil_l. simpl. rewrite Hc. auto.
Qed.

Lemma lang_digits (p : string) :
  lang Pat.digits p -> Conv.all_digits p = true /\ p <> EmptyString.
Proof.
  intros H. inversion H as [| |r1 r2 a b Ha Hb| | | | | | |]; subst.
  inversion Ha as [|q c Hc| | | | | | | |]; subst.
  rewrite append_cons, append_nil_l. simpl. rewrite Hc.
  split; [apply (lang_rep_digit b Hb) | discriminate].
Qed.

Lemma lang_decimal (p : string) :
  lang Pat.decimal p -> exists q, Conv.py_float p = Ret q.
Proof.
  intros H. inversion H as [| |r1 r2 a b Ha Hb| | | | | | |]; subst.
  inversion Hb as [| |r1 r2 d b' Hd Hb'| | | | | | |]; subst.
  inversion Hd as [|q c Hc| | | | | | | |]; subst.
  apply lang_digits in Ha as [Ha Hane], Hb' as [Hb' Hbne].
  rewrite append_cons, append_nil_l.
  unfold Conv.py_float, Conv.float_literal.
  rewrite (split_dot_decimal a b' c Ha), Ha, Hb'.
  - destruct (String.length a) eqn:Hlen.
    + destruct a; [congruence|discriminate Hlen].
    + simpl. eauto.
  - unfold Text.ascii_eqb in *. rewrite N.eqb_sym. exact Hc.
Qed.

Lemma captures_Lit (P : nat -> string -> Prop) (s : string) :
  captures P (Lit s).
Proof. induction s; simpl; auto. Qed.

Ltac captures_tac :=
  repeat match goal with
  | |- captures _ (Lit _) => apply captures_Lit
  | |- captures _ _ => simpl
  | |- _ /\ _ => split
  | |- True => exact I
  end.

Lemma captures_win_latency : captures float_text Pat.win_latency.
Proof.
  unfold Pat.win_latency, Pat.cat. captures_tac;
    intros p Hp; apply lang_digits in Hp as [H1 H2];
    eexists; apply py_float_digits; assumption.
Qed.

Lemma captures_posix_latency : captures float_text Pat.posix_latency.
Proof.
  unfold Pat.posix_latency, Pat.cat. captures_tac;
    intros p Hp; apply lang_decimal, Hp.
Qed.



End Numbers.

(** ** Latency, continued *)

Lemma latency_groups w output m :
  Re.search (latency_pattern w) output = Some m ->
  exists a b c,
    Conv.py_float (Re.group m 1) = Ret a /\
    Conv.py_float (Re.group m 2) = Ret b /\
    Conv.py_float (Re.group m 3) = Ret c.
Proof.
  unfold latency_pattern. intros Hm.
  assert (forall n, In n [1; 2; 3]%nat -> float_text n (Re.group m n)) as H.
  { intros n Hn. destruct (is_windows w).
    - apply (search_group float_text _ _ _ _ captures_win_latency Hm).
      vm_compute in Hn |- *. tauto.
    - apply (search_group float_text _ _ _ _ captures_posix_latency Hm).
      vm_compute in Hn |- *. tauto. }
  destruct (H 1%nat) as [a Ha]; [simpl; tauto|].
  destruct (H 2%nat) as [b Hb]; [simpl; tauto|].
  destruct (H 3%nat) as [c Hc]; [simpl; tauto|].
  eauto 10.
Qed.

(** What [latency_check] returns, case by case. *)
Lemma latency_check_cases w host :
  match check_output w (latency_command w host) with
  | Raise e =>
      latency_check w host
      = Ret (Latency.set_error (str_exn e) Latency.unavailable)
  | Ret output =>
      match Re.search (latency_pattern w) output with
      | None => latency_check w host = Ret Latency.unavailable
      | Some m =>
          exists lo mid hi,
            Conv.py_float (Re.group m 1) = Ret lo /\
            Conv.py_float (Re.group m (avg_group w)) = Ret mid /\
            Conv.py_float (Re.group m (max_group w)) = Ret hi /\
            latency_check w host = Ret (Latency.Make lo mid hi None)
      end
  end.
Proof.
  destruct (check_output w (latency_command w host)) as [output|e] eqn:Hout.
  - destruct (Re.search (latency_pattern w) output) as [m|] eqn:Hm.
    + destruct (latency_groups w output m Hm) as (a & b & c & Ha & Hb & Hc).
      unfold latency_check, latency_body, latency_command, latency_pattern,
        avg_group, max_group in *.
      destruct (is_windows w); py_unfold; rewrite Hout, Hm, Ha, Hb, Hc.
      * exists a, c, b. auto.
      * exists a, b, c. auto.
    + unfold latency_check. unfold Py.bind at 1. unfold Py.try_except.
      rewrite (latency_body_not_found w host output Hout Hm). reflexivity.
  - unfold latency_check, latency_body, latency_command in *.
    destruct (is_windows w); py_unfold; rewrite Hout; reflexivity.
Qed.




(** ** Packet loss *)





(** ** Route tracing *)

(** C5, evaluated.  A hop line whose three timing fields are all "*"
    does not match the hop pattern of either OS family, as the
    traceroute tools print it, so no entry is appended for it: the
    returned hops are 1 and 3, hop 2 is missing. *)
Theorem route_tracing_skips_silent_hop :
  route_tracing (posix_world (Ret posix_trace_with_silent_hop)) "example.org"
  = Ret [Hop.Make 1 "10.0.0.1" "10.0.0.1" (11 # 10) None;
         Hop.Make 3 "10.0.0.3" "10.0.0.3" 6 None] /\
  route_tracing (windows_world (Ret windows_trace_with_silent_hop)) "example.org"
  = Ret [Hop.Make 1 "10.0.0.1" "10.0.0.1" 1 None;
         Hop.Make 3 "10.0.0.3" "10.0.0.3" 12 None].
Proof. split; vm_compute; reflexivity. Qed.

Lemma route_body_invocation_fails w host e :
  check_output w (route_command w host) = Raise e ->
  route_body w host [] = (Raise e, []).
Proof.
  unfold route_command, route_body. intros H.
  destruct (is_windows w); py_unfold; rewrite H; reflexivity.
Qed.

(** C10, as the code has it.  When the body of [route_tracing] raises
    after [hops] entries were appended, the function returns (it does
    not raise) those entries followed by the failure entry (hop 1,
    host "Error", ip "Error", time 0, error = the exception text); when
    it is the traceroute invocation that raises, nothing was appended
    and the result is the failure entry alone. *)
Theorem route_tracing_failure w host e hops :
  route_body w host [] = (Raise e, hops) ->
  route_tracing w host = Ret (hops ++ [Hop.failed (str_exn e)]) /\
  (raises (check_output w (route_command w host)) ->
   route_tracing w host = Ret [Hop.failed (str_exn e)]).
Proof.
  intros Hbody.
  assert (route_tracing w host = Ret (hops ++ [Hop.failed (str_exn e)])) as Hr.
  { unfold route_tracing, append_hop. py_unfold. rewrite Hbody. reflexivity. }
  split; [exact Hr|].
  intros [e' He']. rewrite (route_body_invocation_fails w host e' He') in Hbody.
  injection Hbody as <- <-. exact Hr.
Qed.

Lemma route_tracing_failure_witness :
  let e := Exn CalledProcessError
    "Command 'traceroute -n example.org' returned non-zero exit status 127." in
  route_body no_traceroute_world "example.org" [] = (Raise e, []) /\
  route_tracing no_traceroute_world "example.org"
  = Ret [Hop.failed (str_exn e)].
Proof.
  intros e.
  assert (route_body no_traceroute_world "example.org" [] = (Raise e, [])) as H
    by reflexivity.
  split; [exact H|].
  exact (proj1 (route_tracing_failure no_traceroute_world "example.org" e [] H)).
Defined.

(** C10 as stated fails: a hop parsed before the failure stays in the
    list, so the result has two entries. *)
Lemma route_tracing_failure_counterexample :
  let w := posix_world (Ret posix_trace_with_bad_sample) in
  (exists e hops, route_body w "example.org" [] = (Raise e, hops)) /\
  route_tracing w "example.org"
  = Ret [Hop.Make 1 "10.0.0.1" "10.0.0.1" (11 # 10) None;
         Hop.failed "could not convert string to float: '1.2.3'"] /\
  ~ only_failure (route_tracing w "example.org").
Proof.
  intros w.
  assert (route_tracing w "example.org"
          = Ret [Hop.Make 1 "10.0.0.1" "10.0.0.1" (11 # 10) None;
                 Hop.failed "could not convert string to float: '1.2.3'"]) as Hr
    by (vm_compute; reflexivity).
  split; [|split; [exact Hr|]].
  - eexists _, _. vm_compute. reflexivity.
  - intros [text H]. rewrite Hr in H. discriminate H.
Qed.

(** ** Subnet scan *)

Lemma check_ip_returns w ip s :
  exists r s', check_ip w ip s = (Ret r, s') /\
    Scan.results s' = Scan.results s /\
    Scan.dispatched s' <> [].
Proof.
  unfold check_ip. py_unfold.
  destruct (os_system w _ =? 0)%Z; eexists _, _;
    (split; [reflexivity|]); simpl; (split; [reflexivity|]);
    destruct (Scan.dispatched s); discriminate.
Qed.

Lemma submit_all_returns w hosts s :
  exists rs s', submit_all w hosts s = (Ret rs, s') /\
    Scan.results s' = Scan.results s.
Proof.
  revert s. induction hosts as [|ip hosts IH]; intros s; simpl.
  - eexists _, _. split; reflexivity.
  - unfold Py.bind at 1.
    destruct (check_ip_returns w ip s) as (r & s1 & -> & Hres & _).
    unfold Py.bind at 1.
    destruct (IH s1) as (rs & s2 & -> & Hres2).
    eexists _, _. split; [reflexivity|]. congruence.
Qed.

Lemma collect_returns futures i s :
  exists s', collect futures i s = (Ret tt, s').
Proof.
  unfold collect. destruct (futures !! i) as [[d|]|]; py_unfold; eauto.
Qed.

(** C3.  When the subnet text is rejected by the address library,
    [network_scan] returns a report with [total_scanned = 0], no active
    device and a non-empty error text, and not one probe command was
    handed to the pool. *)
Theorem network_scan_invalid_subnet w subnet e :
  ip_network w subnet = Raise e ->
  exists r msg,
    network_scan w subnet = Ret r /\
    Scan.total_scanned r = 0 /\
    Scan.active_devices r = [] /\
    Scan.error r = Some msg /\ msg <> EmptyString /\
    network_scan_dispatched w subnet = [].
Proof.
  intros H. unfold network_scan, network_scan_dispatched, scan_run, scan_body.
  rewrite H. py_unfold.
  destruct (is_ValueError e); eexists _, _; simpl;
    repeat split; discriminate.
Qed.

Lemma network_scan_invalid_subnet_witness :
  ip_network sample_lan "not-a-subnet"
  = Raise (Exn ValueError
      "'not-a-subnet' does not appear to be an IPv4 or IPv6 network") /\
  exists r msg,
    network_scan sample_lan "not-a-subnet" = Ret r /\
    Scan.total_scanned r = 0 /\
    Scan.active_devices r = [] /\
    Scan.error r = Some msg /\ msg <> EmptyString /\
    network_scan_dispatched sample_lan "not-a-subnet" = [].
Proof.
  assert (ip_network sample_lan "not-a-subnet"
          = Raise (Exn ValueError
              "'not-a-subnet' does not appear to be an IPv4 or IPv6 network"))
    as H by reflexivity.
  split; [exact H|].
  exact (network_scan_invalid_subnet sample_lan "not-a-subnet" _ H).
Defined.

(** *** The order of the keys and the sort *)

Lemma key_le_total (a b : list Z) : key_le a b = false -> key_le b a = true.
Proof.
  revert b. induction a as [|x a IH]; intros [|y b]; simpl; try discriminate.
  - reflexivity.
  - destruct (x <? y)%Z eqn:Hxy; [discriminate|].
    destruct (y <? x)%Z eqn:Hyx; [reflexivity|]. apply IH.
Qed.

Lemma key_le_trans (a b c : list Z) :
  key_le a b = true -> key_le b c = true -> key_le a c = true.
Proof.
  revert b c. induction a as [|x a IH]; intros [|y b] [|z c]; simpl;
    try discriminate; try reflexivity.
  destruct (x <? y)%Z eqn:Hxy, (y <? x)%Z eqn:Hyx,
           (y <? z)%Z eqn:Hyz, (z <? y)%Z eqn:Hzy,
           (x <? z)%Z eqn:Hxz, (z <? x)%Z eqn:Hzx;
    try discriminate; try reflexivity; try lia; try apply IH.
Qed.

Section SortFacts.
Context {A : Type}.
Implicit Types (x : list Z * A) (l : list (list Z * A)).

Lemma insert_by_Forall (Q : list Z * A -> Prop) x l :
  Q x -> Forall Q l -> Forall Q (insert_by x l).
Proof.
  intros Hx. induction 1 as [|y l Hy Hl IH]; simpl.
  - auto.
  - destruct (key_le (fst x) (fst y)); auto.
Qed.

Lemma insert_by_sorted x l :
  StronglySorted by_key l -> StronglySorted by_key (insert_by x l).
Proof.
  induction 1 as [|y l Hl IH Hy]; simpl.
  - repeat constructor.
  - destruct (key_le (fst x) (fst y)) eqn:Hxy.
    + constructor; [constructor; assumption|].
      constructor; [exact Hxy|].
      eapply Forall_impl; [exact Hy|].
      intros z Hz. unfold by_key in *. eapply key_le_trans; eassumption.
    + constructor; [exact IH|].
      apply insert_by_Forall; [|exact Hy].
      apply key_le_total, Hxy.
Qed.

Lemma sort_by_sorted l : StronglySorted by_key (sort_by l).
Proof.
  induction l as [|x l IH]; simpl; [constructor | apply insert_by_sorted, IH].
Qed.

Lemma sort_by_Forall (Q : list Z * A -> Prop) l :
  Forall Q l -> Forall Q (sort_by l).
Proof. induction 1; simpl; auto using insert_by_Forall. Qed.

Lemma insert_by_perm x l : Permutation (insert_by x l) (x :: l).
Proof.
  induction l as [|y l IH]; simpl; [reflexivity|].
  destruct (key_le (fst x) (fst y)); [reflexivity|].
  rewrite IH. apply perm_swap.
Qed.

Lemma sort_by_perm l : Permutation (sort_by l) l.
Proof.
  induction l as [|x l IH]; simpl; [reflexivity|].
  rewrite insert_by_perm, IH. reflexivity.
Qed.

Lemma sorted_keys l :
  StronglySorted by_key l ->
  StronglySorted (fun a b => key_le a b = true) (map fst l).
Proof.
  induction 1 as [|x l Hl IH Hx]; simpl; constructor; [exact IH|].
  apply Forall_map. exact Hx.
Qed.

End SortFacts.

Lemma with_key_keyed (devices : list Device.t) keyed :
  map_outcome with_key devices = Ret keyed ->
  Forall (fun kd => ip_key (snd kd) = Ret (fst kd)) keyed /\
  map snd keyed = devices.
Proof.
  revert keyed. induction devices as [|d devices IH]; simpl; intros keyed H.
  - injection H as <-. split; [constructor|reflexivity].
  - unfold with_key in H at 1. destruct (ip_key d) as [k|e] eqn:Hk; [|discriminate].
    destruct (map_outcome with_key devices) as [ks|e]; [|discriminate].
    injection H as <-. destruct (IH ks eq_refl) as [HF Hm].
    split; [constructor; [exact Hk|exact HF] | simpl; congruence].
Qed.

Lemma keyed_keys (l : list (list Z * Device.t)) :
  Forall (fun kd => ip_key (snd kd) = Ret (fst kd)) l ->
  map_outcome ip_key (map snd l) = Ret (map fst l).
Proof.
  induction 1 as [|kd l Hkd Hl IH]; simpl; [reflexivity|].
  rewrite Hkd, IH. reflexivity.
Qed.

(** What [sort_devices] returns is in ascending order of the keys and
    holds the same devices. *)
Lemma sort_devices_sorted devices sorted :
  sort_devices devices = Ret sorted ->
  keys_ascending sorted /\ Permutation sorted devices.
Proof.
  unfold sort_devices. intros H.
  destruct (map_outcome with_key devices) as [keyed|e] eqn:Hkeyed; [|discriminate].
  injection H as <-. destruct (with_key_keyed devices keyed Hkeyed) as [HF Hm].
  split.
  - exists (map fst (sort_by keyed)). split.
    + apply keyed_keys, sort_by_Forall, HF.
    + apply sorted_keys, sort_by_sorted.
  - rewrite <- Hm. apply Permutation_map, sort_by_perm.
Qed.

(** C4.  A report of [network_scan] that carries no error lists its
    active devices in ascending order of the lists of numeric
    dotted-address components, compared as integers component by
    component. *)
Theorem network_scan_sorted w subnet r :
  network_scan w subnet = Ret r -> Scan.error r = None ->
  keys_ascending (Scan.active_devices r).
Proof.
  unfold network_scan, scan_run, scan_body.
  destruct (ip_network w subnet) as [all_hosts|e].
  - py_unfold.
    match goal with |- context [submit_all w ?h ?st] =>
      destruct (submit_all_returns w h st) as (rs & s1 & -> & _) end.
    match goal with |- context [Py.for_each ?idx ?body ?st] =>
      destruct (for_each_returns idx body (collect_returns rs) st) as (s2 & ->) end.
    destruct (sort_devices _) as [sorted|e] eqn:Hsort; simpl.
    + intros [= <-] _. simpl. apply (sort_devices_sorted _ _ Hsort).
    + intros [= <-]. discriminate.
  - py_unfold. destruct (is_ValueError e); simpl; intros [= <-]; discriminate.
Qed.

Lemma network_scan_sorted_witness :
  let r := Scan.Make None
             [Device.Make "10.0.0.2" "Ativo" "N/A";
              Device.Make "10.0.0.10" "Ativo" "N/A";
              Device.Make "10.0.1.1" "Ativo" "N/A"] 4 (Some 3) in
  network_scan sample_lan "10.0.0.0/23" = Ret r /\ Scan.error r = None /\
  keys_ascending (Scan.active_devices r).
Proof.
  intros r.
  assert (network_scan sample_lan "10.0.0.0/23" = Ret r) as Hr
    by (vm_compute; reflexivity).
  split; [exact Hr|]. split; [reflexivity|].
  exact (network_scan_sorted sample_lan "10.0.0.0/23" r Hr eq_refl).
Defined.

(** ** Port sweep *)

Lemma scan_single_port_returns w domain i port :
  returns (connect_ex w i domain port) ->
  exists status, scan_single_port w domain i port = Ret (port, status).
Proof.
  intros [result H]. unfold scan_single_port. rewrite H.
  destruct (result =? 0)%Z; eauto.
Qed.

Lemma record_ports_loop w domain (ports : list Z) (idx : list nat)
  (m0 : gmap Z string) :
  (forall i port, ports !! i = Some port ->
                  returns (connect_ex w i domain port)) ->
  exists m : gmap Z string,
    Py.for_each idx (record_port (imap (scan_single_port w domain) ports)) m0
    = (Ret tt, m) /\
    (forall port, is_Some (m !! port) <->
       is_Some (m0 !! port) \/ exists i, i ∈ idx /\ ports !! i = Some port) /\
    (forall port status, m !! port = Some status ->
       m0 !! port = Some status \/
       exists i, ports !! i = Some port /\
                 scan_single_port w domain i port = Ret (port, status)).
Proof.
  intros Hret. revert m0. induction idx as [|i idx IH]; intros m0; simpl.
  - exists m0. split; [reflexivity|]. split; [|auto].
    intros port. split; [auto|]. intros [H|(i & Hi & _)]; [exact H|].
    inversion Hi.
  - unfold Py.bind, record_port at 1. rewrite list_lookup_imap.
    destruct (ports !! i) as [port|] eqn:Hport; simpl.
    + destruct (scan_single_port_returns w domain i port (Hret i port Hport))
        as [status Hst].
      rewrite Hst. unfold Py.modify.
      destruct (IH (<[port := status]> m0)) as (m & Hm & Hdom & Hval).
      exists m. split; [exact Hm|]. split.
      * intros p. rewrite Hdom. split.
        -- intros [H|(j & Hj & Hp)].
           ++ destruct (decide (port = p)) as [<-|Hne].
              ** right. exists i. split; [left|exact Hport].
              ** rewrite lookup_insert_ne in H by exact Hne. auto.
           ++ right. exists j. split; [right; exact Hj|exact Hp].
        -- intros [H|(j & Hj & Hp)].
           ++ left. destruct (decide (port = p)) as [<-|Hne].
              ** rewrite lookup_insert_eq. eauto.
              ** rewrite lookup_insert_ne by exact Hne. exact H.
           ++ apply elem_of_cons in Hj as [->|Hj].
              ** left. rewrite Hport in Hp. injection Hp as ->.
                 rewrite lookup_insert_eq. eauto.
              ** right. eauto.
      * intros p st Hp. destruct (Hval p st Hp) as [H|H]; [|auto].
        destruct (decide (port = p)) as [<-|Hne].
        -- rewrite lookup_insert_eq in H. injection H as <-. eauto.
        -- rewrite lookup_insert_ne in H by exact Hne. auto.
    + unfold Py.ret. destruct (IH m0) as (m & Hm & Hdom & Hval).
      exists m. split; [exact Hm|]. split; [|exact Hval].
      intros p. rewrite Hdom. split.
      * intros [H|(j & Hj & Hp)]; [auto|].
        right. exists j. split; [right; exact Hj|exact Hp].
      * intros [H|(j & Hj & Hp)]; [auto|].
        apply elem_of_cons in Hj as [->|Hj]; [congruence|eauto].
Qed.


Lemma posix_world_fair out : fair (posix_world out).
Proof. intros n. reflexivity. Qed.



(** ** Totality at the boundary *)

Lemma speed_test_returns w :
  exists r, speed_test w = Ret r /\
    forall e st,
      speed_body w (Speed.State (Speed.Make 0 0 0 None) 0) = (Raise e, st) ->
      Speed.error r = Some (str_exn e).
Proof.
  unfold speed_test. unfold Py.bind at 1. unfold Py.try_except.
  destruct (speed_body w _) as [[[]|e] st]; py_unfold; simpl.
  - eexists. split; [reflexivity|]. intros e st' H. discriminate H.
  - eexists. split; [reflexivity|]. intros e' st' [= <- <-]. reflexivity.
Qed.

Lemma latency_check_returns w host :
  exists r, latency_check w host = Ret r /\
    forall e st,
      latency_body w host Latency.unavailable = (Raise e, st) ->
      Latency.error r = Some (str_exn e).
Proof.
  unfold latency_check. unfold Py.bind at 1. unfold Py.try_except.
  destruct (latency_body w host _) as [[[]|e] st]; py_unfold; simpl.
  - eexists. split; [reflexivity|]. intros e st' H. discriminate H.
  - eexists. split; [reflexivity|]. intros e' st' [= <- <-]. reflexivity.
Qed.

Lemma packet_loss_analysis_returns w host packets :
  exists r, packet_loss_analysis w host packets = Ret r /\
    forall e st,
      packet_loss_body w host packets (PacketLoss.Make packets 0 0 0 None)
      = (Raise e, st) ->
      PacketLoss.error r = Some (str_exn e) /\
      PacketLoss.loss_percentage r = 100%Q.
Proof.
  unfold packet_loss_analysis. unfold Py.bind at 1. unfold Py.try_except.
  destruct (packet_loss_body w host packets _) as [[[]|e] st]; py_unfold; simpl.
  - eexists. split; [reflexivity|]. intros e st' H. discriminate H.
  - eexists. split; [reflexivity|]. intros e' st' [= <- <-]. split; reflexivity.
Qed.

Lemma route_tracing_returns w host :
  exists hops, route_tracing w host = Ret hops /\
    forall e st,
      route_body w host [] = (Raise e, st) ->
      last hops = Some (Hop.failed (str_exn e)).
Proof.
  unfold route_tracing, append_hop. unfold Py.bind at 1. unfold Py.try_except.
  destruct (route_body w host _) as [[[]|e] st]; py_unfold; simpl.
  - eexists. split; [reflexivity|]. intros e st' H. discriminate H.
  - eexists. split; [reflexivity|]. intros e' st' [= <- <-]. apply last_snoc.
Qed.

Lemma network_scan_returns w subnet :
  exists r, network_scan w subnet = Ret r /\
    forall e st,
      scan_body w subnet (Scan.State (Scan.Make None [] 0 None) [])
      = (Raise e, st) ->
      Scan.error r = Some ("Erro ao escanear a rede: " +:+ str_exn e).
Proof.
  unfold network_scan, scan_run. unfold Py.try_except.
  destruct (scan_body w subnet _) as [[r|e] st]; py_unfold; simpl.
  - eexists. split; [reflexivity|]. intros e st' H. discriminate H.
  - eexists. split; [reflexivity|]. intros e' st' [= <- <-]. reflexivity.
Qed.

(** C8.  Each of [speed_test], [latency_check], [packet_loss_analysis],
    [route_tracing] and [network_scan] returns its result structure for
    every input and every behaviour of the platform, and never raises;
    when the guarded body of the operation raises, the exception text
    is in the [error] field of the result (for [route_tracing], in the
    failure entry that ends the list; for [packet_loss_analysis],
    together with a loss of 100). *)
Theorem diagnostics_never_raise w host packets subnet :
  (exists r, speed_test w = Ret r /\
     forall e st,
       speed_body w (Speed.State (Speed.Make 0 0 0 None) 0) = (Raise e, st) ->
       Speed.error r = Some (str_exn e)) /\
  (exists r, latency_check w host = Ret r /\
     forall e st,
       latency_body w host Latency.unavailable = (Raise e, st) ->
       Latency.error r = Some (str_exn e)) /\
  (exists r, packet_loss_analysis w host packets = Ret r /\
     forall e st,
       packet_loss_body w host packets (PacketLoss.Make packets 0 0 0 None)
       = (Raise e, st) ->
       PacketLoss.error r = Some (str_exn e) /\
       PacketLoss.loss_percentage r = 100%Q) /\
  (exists hops, route_tracing w host = Ret hops /\
     forall e st,
       route_body w host [] = (Raise e, st) ->
       last hops = Some (Hop.failed (str_exn e))) /\
  (exists r, network_scan w subnet = Ret r /\
     forall e st,
       scan_body w subnet (Scan.State (Scan.Make None [] 0 None) [])
       = (Raise e, st) ->
       Scan.error r = Some ("Erro ao escanear a rede: " +:+ str_exn e)).
Proof.
  repeat split.
  - apply speed_test_returns.
  - apply latency_check_returns.
  - apply packet_loss_analysis_returns.
  - apply route_tracing_returns.
  - apply network_scan_returns.
Qed.

(** * Further properties *)

(** ** Subnet scan: coverage *)

Lemma check_ip_spec w ip s :
  check_ip w ip s
  = (Ret (probe_result w ip), Scan.dispatch (probe_command w ip) s).
Proof.
  unfold check_ip, probe_result, answers, device_of, probe_command. py_unfold.
  destruct (os_system w _ =? 0)%Z; reflexivity.
Qed.

Lemma submit_all_spec w hosts s :
  submit_all w hosts s
  = (Ret (map (probe_result w) hosts),
     Scan.State (Scan.results s)
       (Scan.dispatched s ++ map (probe_command w) hosts)).
Proof.
  revert s. induction hosts as [|ip hosts IH]; intros s; simpl.
  - rewrite app_nil_r. destruct s; reflexivity.
  - unfold Py.bind at 1. rewrite check_ip_spec.
    unfold Py.bind at 1. rewrite IH. unfold Py.ret, Scan.dispatch. simpl.
    rewrite <- app_assoc. reflexivity.
Qed.

Lemma collect_loop_spec (futures : list (option Device.t)) (idx : list nat) s :
  Py.for_each idx (collect futures) s
  = (Ret tt,
     Scan.on_results
       (fun r => Scan.set_active_devices
          (Scan.active_devices r ++ omap (fun i => mjoin (futures !! i)) idx) r)
       s).
Proof.
  revert s. induction idx as [|i idx IH]; intros s; simpl.
  - unfold Py.ret, Scan.on_results, Scan.set_active_devices.
    rewrite app_nil_r. destruct s as [[] ?]; reflexivity.
  - unfold Py.bind, collect at 1.
    destruct (futures !! i) as [[d|]|] eqn:Hi; simpl.
    + unfold Py.modify. rewrite IH.
      unfold Scan.on_results, Scan.set_active_devices. simpl.
      rewrite <- app_assoc. reflexivity.
    + unfold Py.ret. rewrite IH. reflexivity.
    + unfold Py.ret. rewrite IH. reflexivity.
Qed.

Lemma omap_lookup_seq_from {A} (pre l : list (option A)) :
  omap (fun i => mjoin ((pre ++ l) !! i))
       (seq (List.length pre) (List.length l))
  = omap id l.
Proof.
  revert pre. induction l as [|x l IH]; intros pre; [reflexivity|].
  simpl. rewrite list_lookup_middle by reflexivity. simpl.
  specialize (IH (pre ++ [x])). rewrite <- app_assoc in IH. simpl in IH.
  rewrite length_app in IH. simpl in IH.
  replace (List.length pre + 1)%nat with (S (List.length pre)) in IH by lia.
  destruct x; [f_equal|]; exact IH.
Qed.

Lemma omap_lookup_seq {A} (l : list (option A)) :
  omap (fun i => mjoin (l !! i)) (seq 0 (List.length l)) = omap id l.
Proof. apply (omap_lookup_seq_from [] l). Qed.

(** What a scan of a valid subnet computes. *)
Lemma scan_run_valid w subnet all_hosts :
  ip_network w subnet = Ret all_hosts ->
  network_scan w subnet
  = match sort_devices (discovered w (scanned all_hosts)) with
    | Ret sorted =>
        Ret (Scan.Make None sorted
               (Z.of_nat (List.length (scanned all_hosts)))
               (Some (Z.of_nat (List.length sorted))))
    | Raise e => Ret (scan_failed e)
    end /\
  network_scan_dispatched w subnet
  = map (probe_command w) (scanned all_hosts).
Proof.
  intros Hip.
  unfold network_scan, network_scan_dispatched, scan_run, scan_body.
  rewrite Hip. fold (scanned all_hosts).
  py_unfold. rewrite submit_all_spec, collect_loop_spec, length_map.
  fold (discovered w (scanned all_hosts)). simpl.
  destruct (sort_devices _) as [sorted|e]; simpl; split; reflexivity.
Qed.

Lemma discovered_perm w hosts :
  fair w ->
  Permutation (discovered w hosts)
              (map (device_of w) (List.filter (answers w) hosts)).
Proof.
  intros Hfair. unfold discovered. rewrite (Hfair (List.length hosts)).
  rewrite <- (length_map (probe_result w) hosts) at 1.
  rewrite omap_lookup_seq.
  induction hosts as [|ip hosts IH]; simpl; [reflexivity|].
  unfold probe_result at 1. destruct (answers w ip); simpl.
  - rewrite IH. reflexivity.
  - exact IH.
Qed.

(** X1.  A scan of a valid subnet that ends without error reports
    exactly the probed hosts whose ping exits with status 0, for whatever
    order the pool completes them in; [total_scanned] is the number of
    probed hosts (at most 254) and [total_active] the number of devices
    listed. *)
Theorem network_scan_finds_answering_hosts w subnet all_hosts r :
  fair w ->
  ip_network w subnet = Ret all_hosts ->
  network_scan w subnet = Ret r -> Scan.error r = None ->
  Permutation (Scan.active_devices r)
    (map (device_of w) (List.filter (answers w) (scanned all_hosts))) /\
  Scan.total_scanned r = Z.of_nat (Nat.min 254 (List.length all_hosts)) /\
  Scan.total_active r = Some (Z.of_nat (List.length (Scan.active_devices r))).
Proof.
  intros Hfair Hip Hr Herr.
  destruct (scan_run_valid w subnet all_hosts Hip) as [Hscan _].
  rewrite Hscan in Hr.
  destruct (sort_devices _) as [sorted|e] eqn:Hsort.
  - injection Hr as <-.
    cbn [Scan.active_devices Scan.total_scanned Scan.total_active].
    destruct (sort_devices_sorted _ _ Hsort) as [_ Hperm].
    split; [|split; [|reflexivity]].
    + rewrite Hperm. apply discovered_perm, Hfair.
    + unfold scanned. rewrite length_take. apply f_equal.
      apply Nat.min_l, Nat.le_min_r.
  - injection Hr as <-. discriminate Herr.
Qed.

Lemma reversed_lan_fair valid hosts alive : fair (reversed_lan valid hosts alive).
Proof. intros n. simpl. symmetry. apply Permutation_rev. Qed.

Lemma network_scan_finds_answering_hosts_witness :
  let w := reversed_lan (String.eqb "10.0.0.0/30")
             ["10.0.0.1"; "10.0.0.2"] ["10.0.0.2"] in
  let r := Scan.Make None [Device.Make "10.0.0.2" "Ativo" "N/A"] 2 (Some 1) in
  fair w /\
  ip_network w "10.0.0.0/30" = Ret ["10.0.0.1"; "10.0.0.2"] /\
  network_scan w "10.0.0.0/30" = Ret r /\ Scan.error r = None /\
  Permutation (Scan.active_devices r)
    (map (device_of w)
       (List.filter (answers w) (scanned ["10.0.0.1"; "10.0.0.2"]))) /\
  Scan.total_scanned r = Z.of_nat (Nat.min 254 2) /\
  Scan.total_active r = Some (Z.of_nat (List.length (Scan.active_devices r))).
Proof.
  intros w r.
  assert (fair w) as Hfair by apply reversed_lan_fair.
  assert (network_scan w "10.0.0.0/30" = Ret r) as Hr by (vm_compute; reflexivity).
  split; [exact Hfair|]. split; [reflexivity|]. split; [exact Hr|].
  split; [reflexivity|].
  exact (network_scan_finds_answering_hosts w "10.0.0.0/30"
           ["10.0.0.1"; "10.0.0.2"] r Hfair eq_refl Hr eq_refl).
Defined.

Lemma scanned_take (all_hosts : list string) :
  scanned all_hosts = take 254 all_hosts.
Proof.
  unfold scanned.
  destruct (Nat.le_gt_cases 254 (List.length all_hosts)) as [H|H].
  - rewrite Nat.min_l by exact H. reflexivity.
  - rewrite Nat.min_r by lia. rewrite !take_ge by lia. reflexivity.
Qed.

(** X2.  A scan of a valid subnet hands to the pool exactly one ping
    command per probed address, for the first 254 hosts of the subnet in
    their order, and so never more than 254 - also when the report it
    finally returns is an error report. *)
Theorem network_scan_dispatches_once w subnet all_hosts :
  ip_network w subnet = Ret all_hosts ->
  network_scan_dispatched w subnet
  = map (probe_command w) (take 254 all_hosts) /\
  (List.length (network_scan_dispatched w subnet) <= 254)%nat.
Proof.
  intros Hip. destruct (scan_run_valid w subnet all_hosts Hip) as [_ Hd].
  rewrite Hd, scanned_take. split; [reflexivity|].
  rewrite length_map, length_take. apply Nat.le_min_l.
Qed.

Lemma network_scan_dispatches_once_witness :
  let w := reversed_lan (String.eqb "10.0.0.0/30")
             ["10.0.0.1"; "10.0.0.2"] ["10.0.0.2"] in
  ip_network w "10.0.0.0/30" = Ret ["10.0.0.1"; "10.0.0.2"] /\
  network_scan_dispatched w "10.0.0.0/30"
  = ["ping -c 1 -w 1 10.0.0.1"; "ping -c 1 -w 1 10.0.0.2"].
Proof.
  intros w. split; [reflexivity|].
  exact (proj1 (network_scan_dispatches_once w "10.0.0.0/30"
                  ["10.0.0.1"; "10.0.0.2"] eq_refl)).
Defined.

Lemma map_outcome_raises {A B} (f : A -> outcome B) (l : list A) (x : A) :
  In x l -> raises (f x) -> raises (map_outcome f l).
Proof.
  intros Hin [e He]. induction l as [|y l IH]; [destruct Hin|].
  simpl. destruct Hin as [->|Hin].
  - rewrite He. eexists. reflexivity.
  - destruct (f y) as [b|e']; [|eexists; reflexivity].
    destruct (IH Hin) as [e' ->]. eexists. reflexivity.
Qed.

(** X3.  When one answering host has an address with a component that
    [int] rejects (any IPv6 address, for one), the sort key raises and
    [network_scan] returns the error report: no active device and
    [total_scanned = 0], although the hosts were probed. *)
Theorem network_scan_unsortable w subnet all_hosts ip :
  fair w ->
  ip_network w subnet = Ret all_hosts ->
  In ip (scanned all_hosts) -> answers w ip = true ->
  raises (map_outcome Conv.py_int (Text.split "."%char ip)) ->
  exists e,
    network_scan w subnet = Ret (scan_failed e) /\
    Scan.active_devices (scan_failed e) = [] /\
    Scan.total_scanned (scan_failed e) = 0.
Proof.
  intros Hfair Hip Hin Hans Hkey.
  destruct (scan_run_valid w subnet all_hosts Hip) as [Hscan _].
  assert (raises (sort_devices (discovered w (scanned all_hosts)))) as [e He].
  { assert (raises (map_outcome with_key (discovered w (scanned all_hosts))))
      as [e He].
    { apply (map_outcome_raises with_key _ (device_of w ip)).
      - apply (Permutation_in _ (Permutation_sym (discovered_perm w _ Hfair))).
        apply in_map, filter_In. split; assumption.
      - destruct Hkey as [e He]. exists e. unfold with_key, ip_key.
        cbn [Device.ip device_of]. rewrite He. reflexivity. }
    exists e. unfold sort_devices. rewrite He. reflexivity. }
  exists e. rewrite Hscan, He. repeat split.
Qed.

Lemma network_scan_unsortable_witness :
  let w := reversed_lan (String.eqb "fe80::/126")
             ["fe80::1"; "fe80::2"] ["fe80::1"] in
  fair w /\
  answers w "fe80::1" = true /\
  Text.split "."%char "fe80::1" = ["fe80::1"] /\
  exists e,
    network_scan w "fe80::/126" = Ret (scan_failed e) /\
    Scan.active_devices (scan_failed e) = [] /\
    Scan.total_scanned (scan_failed e) = 0.
Proof.
  intros w.
  assert (fair w) as Hfair by apply reversed_lan_fair.
  split; [exact Hfair|]. split; [reflexivity|]. split; [reflexivity|].
  apply (network_scan_unsortable w "fe80::/126" ["fe80::1"; "fe80::2"]
           "fe80::1" Hfair eq_refl).
  - left. reflexivity.
  - reflexivity.
  - eexists. vm_compute. reflexivity.
Defined.

(** ** Speed test *)

Lemma consume_grows cs broken d d' :
  consume cs broken d = Ret d' -> d <= d'.
Proof.
  revert d. induction cs as [|c cs IH]; intros d; simpl.
  - destruct broken; [discriminate|]. intros [= <-]. lia.
  - destruct (0 <? c)%nat;
      (destruct (download_size <=? _)%Z;
       [intros [= <-]; lia | intros H; apply IH in H; lia]).
Qed.

Lemma mbps_returns bytes seconds :
  (0 < seconds)%Q -> 0 <= bytes ->
  exists v, mbps bytes seconds = Ret v /\ (0 <= v)%Q.
Proof.
  intros Hs Hb. unfold mbps, Conv.fdiv, Conv.fmul.
  assert (0 < seconds * 1000000)%Q as Hpos.
  { apply Qmult_lt_0_compat; [exact Hs|reflexivity]. }
  destruct (Qeq_bool (Qred (seconds * 1000000)) 0) eqn:Hz.
  - apply Qeq_bool_eq in Hz. rewrite Qred_correct in Hz.
    rewrite Hz in Hpos. discriminate Hpos.
  - eexists. split; [reflexivity|]. rewrite !Qred_correct.
    apply Qle_shift_div_l; [exact Hpos|].
    rewrite Qmult_0_l. unfold Qle. simpl. lia.
Qed.

Ltac speed_simpl H :=
  cbn [Speed.ticks Speed.result Speed.on_result Speed.set_ping
       Speed.set_download Speed.set_upload Speed.set_error
       Speed.download Speed.upload Speed.ping Speed.error] in H.

Lemma speed_upload_nonneg w (n : nat) r1 o' st :
  speeds_nonneg r1 ->
  match http_post w "https://httpbin.org/post" with
  | Ret _ =>
      (if Qlt_le_dec 0 (Conv.fsub (clock w (S n)) (clock w n))
       then fun s : Speed.state =>
         match mbps upload_size (Conv.fsub (clock w (S n)) (clock w n)) with
         | Ret a4 => (Ret (), Speed.on_result (Speed.set_upload a4) s)
         | Raise e => (Raise e, s)
         end
       else fun s : Speed.state => (Ret (), s))
        (Speed.State r1 (S (S n)))
  | Raise e => (Raise e, Speed.State r1 (S n))
  end = (o', st) ->
  speeds_nonneg (Speed.result st).
Proof.
  intros Hr1 Ht.
  destruct (http_post w _); [|injection Ht as <- <-; exact Hr1].
  destruct (Qlt_le_dec 0 _) as [Hdt|Hdt]; cbv beta in Ht;
    [|injection Ht as <- <-; exact Hr1].
  destruct (mbps_returns upload_size _ Hdt) as (v & Hv & Hv0);
    [unfold upload_size; lia|].
  rewrite Hv in Ht. injection Ht as <- <-.
  split; [apply Hr1 | exact Hv0].
Qed.

Lemma speed_body_nonneg w s o s' :
  speed_body w s = (o, s') ->
  speeds_nonneg (Speed.result s) -> speeds_nonneg (Speed.result s').
Proof.
  unfold speed_body, time_time. py_unfold. destruct s as [r n].
  intros H HP. speed_simpl H. speed_simpl HP.
  assert (forall x, speeds_nonneg (Speed.set_ping x r)) as HP'
    by (intros x; exact HP).
  destruct (http_get w "https://www.google.com");
    [|injection H as <- <-; exact HP].
  destruct (http_get w _) as [resp|]; [|injection H as <- <-; apply HP'].
  destruct (consume _ _ 0) as [d|] eqn:Hd; [|injection H as <- <-; apply HP'].
  apply consume_grows in Hd.
  set (p := Conv.fmul _ 1000) in *. specialize (HP' p).
  destruct (Qlt_le_dec 0 (Conv.fsub (clock w (S (S (S n)))) (clock w (S (S n)))))
    as [Hdt|Hdt].
  - destruct (mbps_returns d _ Hdt Hd) as (v & Hv & Hv0).
    rewrite Hv in H. cbv beta iota in H. speed_simpl H.
    apply speed_upload_nonneg in H; [exact H|]. split; [exact Hv0 | apply HP'].
  - cbv beta iota in H. speed_simpl H.
    apply speed_upload_nonneg in H; [exact H | exact HP'].
Qed.

(** X4.  The download and upload rates [speed_test] reports are never
    negative, whatever the clock and the network do. *)
Theorem speed_test_rates_nonneg w r :
  speed_test w = Ret r -> speeds_nonneg r.
Proof.
  unfold speed_test. unfold Py.bind at 1. unfold Py.try_except.
  destruct (speed_body w _) as [[[]|e] st] eqn:Hbody;
    apply speed_body_nonneg in Hbody;
    try (split; simpl; unfold Qle; simpl; lia);
    py_unfold; simpl; intros [= <-]; apply Hbody.
Qed.

Lemma speed_test_rates_nonneg_witness :
  speed_test (online_world 500)
  = Ret (Speed.Make 4 (131072 # 15625) 1000 None) /\
  speeds_nonneg (Speed.Make 4 (131072 # 15625) 1000 None).
Proof.
  assert (speed_test (online_world 500)
          = Ret (Speed.Make 4 (131072 # 15625) 1000 None)) as H
    by (vm_compute; reflexivity).
  split; [exact H|].
  exact (speed_test_rates_nonneg (online_world 500) _ H).
Defined.

Lemma speed_upload_outcome w (n : nat) r1 o' st :
  match http_post w "https://httpbin.org/post" with
  | Ret _ =>
      (if Qlt_le_dec 0 (Conv.fsub (clock w (S n)) (clock w n))
       then fun s : Speed.state =>
         match mbps upload_size (Conv.fsub (clock w (S n)) (clock w n)) with
         | Ret a4 => (Ret (), Speed.on_result (Speed.set_upload a4) s)
         | Raise e => (Raise e, s)
         end
       else fun s : Speed.state => (Ret (), s))
        (Speed.State r1 (S (S n)))
  | Raise e => (Raise e, Speed.State r1 (S n))
  end = (o', st) ->
  (returns o' <-> returns (http_post w "https://httpbin.org/post")).
Proof.
  intros Ht.
  destruct (http_post w _) as [[]|e].
  - destruct (Qlt_le_dec 0 _) as [Hdt|Hdt]; cbv beta in Ht.
    + destruct (mbps_returns upload_size _ Hdt) as (v & Hv & _);
        [unfold upload_size; lia|].
      rewrite Hv in Ht. injection Ht as <- <-. split; eexists; reflexivity.
    + injection Ht as <- <-. split; eexists; reflexivity.
  - injection Ht as <- <-. split; intros [x Hx]; discriminate Hx.
Qed.

Lemma speed_body_outcome w s o s' :
  speed_body w s = (o, s') -> (returns o <-> exchanges_succeed w).
Proof.
  unfold speed_body, time_time, exchanges_succeed. py_unfold.
  destruct s as [r n]. intros H. speed_simpl H.
  destruct (http_get w "https://www.google.com") as [r0|e0].
  2:{ injection H as <- <-. split.
      - intros [x Hx]; discriminate Hx.
      - intros [[x Hx] _]; discriminate Hx. }
  destruct (http_get w _) as [resp|e1].
  2:{ injection H as <- <-. split.
      - intros [x Hx]; discriminate Hx.
      - intros (_ & (resp & Hresp & _) & _); discriminate Hresp. }
  destruct (consume _ _ 0) as [d|e2] eqn:Hd.
  2:{ injection H as <- <-. split.
      - intros [x Hx]; discriminate Hx.
      - intros (_ & (resp' & [= <-] & [x Hx]) & _). rewrite Hd in Hx.
        discriminate Hx. }
  assert (returns o <-> returns (http_post w "https://httpbin.org/post")) as Ho.
  { pose proof (consume_grows _ _ _ _ Hd) as Hd0.
    destruct (Qlt_le_dec 0 (Conv.fsub (clock w (S (S (S n)))) (clock w (S (S n)))))
      as [Hdt|Hdt].
    - destruct (mbps_returns d _ Hdt Hd0) as (v & Hv & _).
      rewrite Hv in H. cbv beta iota in H. speed_simpl H.
      apply speed_upload_outcome in H. exact H.
    - cbv beta iota in H. speed_simpl H.
      apply speed_upload_outcome in H. exact H. }
  rewrite Ho. split.
  - intros Hp. split; [eexists; reflexivity|]. split; [|exact Hp].
    exists resp. split; [reflexivity|]. rewrite Hd. eexists; reflexivity.
  - intros (_ & _ & Hp). exact Hp.
Qed.

Lemma speed_body_keeps_error w s o s' :
  speed_body w s = (o, s') ->
  Speed.error (Speed.result s') = Speed.error (Speed.result s).
Proof.
  unfold speed_body, time_time. py_unfold.
  destruct s as [r n]. intros H. speed_simpl H.
  repeat match type of H with
  | context [match http_get w ?u with _ => _ end] =>
      destruct (http_get w u)
  | context [match consume ?a ?b ?c with _ => _ end] =>
      destruct (consume a b c)
  | context [match http_post w ?u with _ => _ end] =>
      destruct (http_post w u)
  | context [match mbps ?a ?b with _ => _ end] =>
      destruct (mbps a b)
  | context [if Qlt_le_dec 0 ?x then _ else _] =>
      destruct (Qlt_le_dec 0 x)
  | _ => progress (cbv beta iota in H; speed_simpl H)
  end;
  injection H as <- <-; reflexivity.
Qed.

(** X5.  [speed_test] records an error exactly when one of its three
    exchanges fails (first request, download, upload); the guards on the
    elapsed times rule out a division by zero for every clock, also one
    that stands still or runs backwards. *)
Theorem speed_test_error_iff w r :
  speed_test w = Ret r ->
  (Speed.error r = None <-> exchanges_succeed w).
Proof.
  unfold speed_test. unfold Py.bind at 1. unfold Py.try_except.
  destruct (speed_body w _) as [[[]|e] st] eqn:Hbody;
    pose proof (speed_body_outcome _ _ _ _ Hbody) as Hout;
    pose proof (speed_body_keeps_error _ _ _ _ Hbody) as Herr;
    py_unfold; simpl; intros [= <-].
  - rewrite Herr. simpl. split; [intros _|reflexivity].
    apply Hout. eexists; reflexivity.
  - simpl. split; [discriminate|]. intros H. apply Hout in H as [x Hx].
    discriminate Hx.
Qed.

Lemma speed_test_error_iff_witness :
  speed_test (online_world 500)
  = Ret (Speed.Make 4 (131072 # 15625) 1000 None) /\
  exchanges_succeed (online_world 500).
Proof.
  assert (speed_test (online_world 500)
          = Ret (Speed.Make 4 (131072 # 15625) 1000 None)) as H
    by (vm_compute; reflexivity).
  split; [exact H|].
  exact (proj1 (speed_test_error_iff (online_world 500) _ H) eq_refl).
Defined.

Lemma total_bytes_nonneg cs : 0 <= total_bytes cs.
Proof. induction cs as [|c cs IH]; simpl; lia. Qed.

Lemma consume_quota cs1 cs2 broken d :
  d < download_size -> download_size <= d + total_bytes cs1 ->
  exists d',
    consume (cs1 ++ cs2) broken d = Ret d' /\
    consume cs1 None d = Ret d' /\
    download_size <= d' <= d + total_bytes cs1.
Proof.
  revert d. induction cs1 as [|c cs1 IH]; intros d Hd Hq;
    simpl in Hq; [lia|].
  cbn [app consume].
  assert ((if (0 <? c)%nat then d + Z.of_nat c else d) = d + Z.of_nat c) as ->.
  { destruct (0 <? c)%nat eqn:Hc; [reflexivity|].
    apply Nat.ltb_ge in Hc. lia. }
  destruct (download_size <=? d + Z.of_nat c)%Z eqn:Hle.
  - apply Z.leb_le in Hle. exists (d + Z.of_nat c).
    pose proof (total_bytes_nonneg cs1).
    repeat split; try reflexivity; simpl; lia.
  - apply Z.leb_gt in Hle.
    destruct (IH (d + Z.of_nat c)) as (d' & H1 & H2 & H3); [lia|lia|].
    exists d'. repeat split; try assumption; simpl; lia.
Qed.

(** X6.  Once the chunks received add up to the 10 MiB quota, the
    download loop stops: what the stream does afterwards - more chunks,
    or a failure - has no effect on the byte count, which lies between
    the quota and the bytes received so far. *)
Theorem download_stops_at_quota cs1 cs2 broken :
  download_size <= total_bytes cs1 ->
  exists d,
    consume (cs1 ++ cs2) broken 0 = Ret d /\
    consume cs1 None 0 = Ret d /\
    download_size <= d <= total_bytes cs1.
Proof.
  intros H. apply consume_quota; [reflexivity | lia].
Qed.

Lemma download_stops_at_quota_witness :
  let big := Z.to_nat 6000000 in
  download_size <= total_bytes [big; big] /\
  exists d,
    consume ([big; big] ++ [1024]%nat)
            (Some (Exn RequestException "connection reset")) 0 = Ret d /\
    consume [big; big] None 0 = Ret d /\
    download_size <= d <= total_bytes [big; big].
Proof.
  intros big.
  assert (download_size <= total_bytes [big; big]) as H.
  { unfold total_bytes, big. cbn [foldr]. rewrite !Z2Nat.id by lia.
    unfold download_size. lia. }
  split; [exact H|].
  exact (download_stops_at_quota [big; big] [1024]%nat _ H).
Defined.

(** ** Route tracing: host names *)

Lemma for_each_preserves {St A} (P : St -> Prop) (xs : list A)
  (body : A -> Py.M St unit) :
  (forall x s o s', body x s = (o, s') -> P s -> P s') ->
  forall s o s', Py.for_each xs body s = (o, s') -> P s -> P s'.
Proof.
  intros Hbody. induction xs as [|x xs IH]; intros s o s' H HP; simpl in H.
  - injection H as <- <-. exact HP.
  - unfold Py.bind in H. destruct (body x s) as [[[]|e] s1] eqn:Hx.
    + apply (IH _ _ _ H). apply (Hbody _ _ _ _ Hx HP).
    + injection H as <- <-. apply (Hbody _ _ _ _ Hx HP).
Qed.

Lemma resolve_explained w addr (n : Z) (t : Q) :
  host_explained w (Hop.Make n (resolve w addr) addr t None).
Proof.
  unfold host_explained, resolve. simpl.
  destruct (Re.re_match Pat.dotted_quad addr) as [m|]; [|left; reflexivity].
  destruct (gethostbyaddr w addr) as [name|e]; [|left; reflexivity].
  right. split; [discriminate|reflexivity].
Qed.

Lemma append_hop_explained w h hops o hops' :
  append_hop h hops = (o, hops') ->
  host_explained w h ->
  Forall (host_explained w) hops -> Forall (host_explained w) hops'.
Proof.
  unfold append_hop, Py.modify. intros [= <- <-] Hh Hhops.
  apply Forall_app. split; [exact Hhops|]. constructor; [exact Hh|constructor].
Qed.

Lemma win_line_explained w line hops o hops' :
  win_line w line hops = (o, hops') ->
  Forall (host_explained w) hops -> Forall (host_explained w) hops'.
Proof.
  unfold win_line. destruct (win_header line); [intros [= <- <-]; auto|].
  destruct (Re.search Pat.win_hop line) as [m|]; [|intros [= <- <-]; auto].
  unfold Py.bind, Py.lift.
  destruct (Conv.py_int _) as [n|e]; [|intros [= <- <-]; auto].
  destruct (average _) as [t|e]; [|intros [= <- <-]; auto].
  intros H. apply (append_hop_explained w _ _ _ _ H), resolve_explained.
Qed.

Lemma posix_line_explained w line hops o hops' :
  posix_line w line hops = (o, hops') ->
  Forall (host_explained w) hops -> Forall (host_explained w) hops'.
Proof.
  unfold posix_line.
  destruct (Text.contains _ line); [intros [= <- <-]; auto|].
  destruct (Re.search Pat.posix_hop line) as [m|]; [|intros [= <- <-]; auto].
  unfold Py.bind, Py.lift.
  destruct (Conv.py_int _) as [n|e]; [|intros [= <- <-]; auto].
  destruct (average _) as [t|e]; [|intros [= <- <-]; auto].
  intros H. apply (append_hop_explained w _ _ _ _ H), resolve_explained.
Qed.

Lemma route_body_explained w host o hops :
  route_body w host [] = (o, hops) -> Forall (host_explained w) hops.
Proof.
  unfold route_body. intros H.
  destruct (is_windows w); unfold Py.bind, Py.lift in H;
    destruct (check_output w _) as [output|e];
    try (injection H as <- <-; constructor).
  - apply (for_each_preserves _ _ _ (win_line_explained w) _ _ _ H). constructor.
  - apply (for_each_preserves _ _ _ (posix_line_explained w) _ _ _ H). constructor.
Qed.

(** X7.  Every hop [route_tracing] returns is listed either under its
    own address text or under the name that the reverse lookup of its
    dotted-quad address returned: a lookup is only made for dotted-quad
    addresses, and a lookup that fails leaves the address as the name
    without any other trace. *)
Theorem route_tracing_hosts_explained w host hops :
  route_tracing w host = Ret hops -> Forall (host_explained w) hops.
Proof.
  unfold route_tracing. unfold Py.bind at 1. unfold Py.try_except.
  destruct (route_body w host []) as [[[]|e] st] eqn:Hbody;
    apply route_body_explained in Hbody; py_unfold; simpl; intros [= <-].
  - exact Hbody.
  - apply Forall_app. split; [exact Hbody|].
    constructor; [left; reflexivity|constructor].
Qed.

Lemma route_tracing_hosts_explained_witness :
  let w := posix_world (Ret posix_trace_with_silent_hop) in
  let hops := [Hop.Make 1 "10.0.0.1" "10.0.0.1" (11 # 10) None;
               Hop.Make 3 "10.0.0.3" "10.0.0.3" 6 None] in
  route_tracing w "example.org" = Ret hops /\ Forall (host_explained w) hops.
Proof.
  intros w hops.
  assert (route_tracing w "example.org" = Ret hops) as H
    by (vm_compute; reflexivity).
  split; [exact H|].
  exact (route_tracing_hosts_explained w "example.org" hops H).
Defined.

(** ** Route tracing: the time of a hop *)

Lemma inject_S (n : nat) :
  (inject_Z (Z.of_nat (S n)) == inject_Z (Z.of_nat n) + 1)%Q.
Proof. rewrite Nat2Z.inj_succ, <- Z.add_1_r, inject_Z_plus. reflexivity. Qed.

Lemma sum_floats_bounds (lo hi : Q) (times : list string) (acc : Q) :
  samples_within lo hi times ->
  exists s,
    sum_floats times acc = Ret s /\
    (acc + inject_Z (Z.of_nat (List.length times)) * lo <= s)%Q /\
    (s <= acc + inject_Z (Z.of_nat (List.length times)) * hi)%Q.
Proof.
  intros H. revert acc. induction H as [|t times (v & Hv & Hlo & Hhi) _ IH];
    intros acc.
  - exists acc. split; [reflexivity|].
    change (inject_Z (Z.of_nat (List.length (@nil string)))) with 0%Q.
    split; lra.
  - cbn [sum_floats]. rewrite Hv.
    destruct (IH (Conv.fadd acc v)) as (s & Hs & H1 & H2).
    exists s. split; [exact Hs|].
    unfold Conv.fadd in H1, H2. rewrite Qred_correct in H1, H2.
    cbn [List.length]. rewrite inject_S.
    set (n := inject_Z (Z.of_nat (List.length times))) in *.
    split; nra.
Qed.

(** X8.  When every timing sample of a hop is a number between [lo] and
    [hi], the hop's average is computed (nothing raises) and lies
    between [lo] and [hi] as well. *)
Theorem average_within (lo hi : Q) (times : list string) :
  times <> [] -> samples_within lo hi times ->
  exists a, average times = Ret a /\ (lo <= a <= hi)%Q.
Proof.
  intros Hne H.
  destruct (sum_floats_bounds lo hi times 0 H) as (s & Hs & H1 & H2).
  unfold average. destruct times as [|t times]; [congruence|].
  rewrite Hs. unfold Conv.fdiv.
  set (n := inject_Z (Z.of_nat (List.length (t :: times)))) in *.
  assert (0 < n)%Q as Hn.
  { unfold n. cbn [List.length]. rewrite inject_S.
    assert (0 <= inject_Z (Z.of_nat (List.length times)))%Q
      by (unfold Qle; simpl; lia).
    lra. }
  destruct (Qeq_bool n 0) eqn:Hz.
  - apply Qeq_bool_eq in Hz. lra.
  - eexists. split; [reflexivity|]. rewrite Qred_correct. split.
    + apply Qle_shift_div_l; [exact Hn|]. lra.
    + apply Qle_shift_div_r; [exact Hn|]. lra.
Qed.

Lemma average_within_witness :
  let times := ["5.000"; "7.000"] in
  times <> [] /\ samples_within 5 7 times /\
  exists a, average times = Ret a /\ (5 <= a <= 7)%Q.
Proof.
  intros times.
  assert (times <> []) as Hne by discriminate.
  assert (samples_within 5 7 times) as H.
  { repeat constructor.
    - exists 5%Q. split; [vm_compute; reflexivity|]. split; discriminate.
    - exists 7%Q. split; [vm_compute; reflexivity|]. split; discriminate. }
  split; [exact Hne|]. split; [exact H|].
  exact (average_within 5 7 times Hne H).
Defined.

(** ** Port sweep: failures and completion order *)

Lemma record_loop_raise w domain (ports : list Z) (idx : list nat)
  (m0 m : gmap Z string) e :
  Py.for_each idx (record_port (imap (scan_single_port w domain) ports)) m0
  = (Raise e, m) ->
  exists i port,
    ports !! i = Some port /\ connect_ex w i domain port = Raise e.
Proof.
  revert m0. induction idx as [|i idx IH]; intros m0; simpl.
  - discriminate.
  - unfold Py.bind, record_port at 1. rewrite list_lookup_imap.
    destruct (ports !! i) as [port|] eqn:Hport; simpl.
    + unfold scan_single_port at 1.
      destruct (connect_ex w i domain port) as [result|e'] eqn:Hc.
      * destruct (result =? 0)%Z; unfold Py.modify; apply IH.
      * unfold Py.lift. intros [= <- <-]. eauto.
    + unfold Py.ret. apply IH.
Qed.

Lemma record_loop_meets_raise w domain (ports : list Z) (idx : list nat)
  (m0 : gmap Z string) i port :
  i ∈ idx -> ports !! i = Some port ->
  raises (connect_ex w i domain port) ->
  raises (fst (Py.for_each idx
                 (record_port (imap (scan_single_port w domain) ports)) m0)).
Proof.
  intros Hi Hport [e He]. revert m0.
  induction idx as [|j idx IH]; intros m0; [inversion Hi|].
  simpl. unfold Py.bind, record_port at 1. rewrite list_lookup_imap.
  destruct (decide (j = i)) as [->|Hne].
  - rewrite Hport. simpl. unfold scan_single_port at 1. rewrite He.
    exists e. reflexivity.
  - apply elem_of_cons in Hi as [->|Hi]; [congruence|].
    destruct (ports !! j) as [q|]; simpl.
    + destruct (scan_single_port w domain j q) as [[q' st]|e'].
      * unfold Py.modify. apply (IH Hi).
      * exists e'. reflexivity.
    + unfold Py.ret. apply (IH Hi).
Qed.

(** X9.  [scan_ports] has no result when a probe raises: it raises
    exactly when some submitted probe raises, and what it raises is the
    exception of one of the probes. *)
Theorem scan_ports_raises_iff w domain (ports : list Z) :
  fair w ->
  (forall e, scan_ports w domain ports = Raise e ->
     exists i port,
       ports !! i = Some port /\ connect_ex w i domain port = Raise e) /\
  ((exists i port,
      ports !! i = Some port /\ raises (connect_ex w i domain port)) ->
   raises (scan_ports w domain ports)).
Proof.
  intros Hfair. unfold scan_ports. split.
  - intros e.
    destruct (Py.for_each _ _ ∅) as [[[]|e'] m] eqn:Hloop; [discriminate|].
    intros [= ->]. apply (record_loop_raise _ _ _ _ _ _ _ Hloop).
  - intros (i & port & Hport & Hraise).
    assert (i ∈ as_completed w
                  (List.length (imap (scan_single_port w domain) ports))) as Hi.
    { rewrite (Hfair _), length_imap, elem_of_seq.
      apply lookup_lt_Some in Hport. lia. }
    destruct (record_loop_meets_raise w domain ports _ ∅ i port Hi Hport Hraise)
      as [e He].
    destruct (Py.for_each _ _ ∅) as [[[]|e'] m]; simpl in He;
      [discriminate|]. exists e'. reflexivity.
Qed.

Lemma scan_ports_raises_iff_witness :
  let w := unresolvable_world in
  fair w /\
  (exists i port,
     [80; 443] !! i = Some port /\ raises (connect_ex w i "no.such.host" port)) /\
  raises (scan_ports w "no.such.host" [80; 443]).
Proof.
  intros w.
  assert (fair w) as Hfair by (intros n; reflexivity).
  assert (exists i port,
     [80; 443] !! i = Some port /\ raises (connect_ex w i "no.such.host" port))
    as Hex.
  { exists 0%nat, 80. split; [reflexivity|]. eexists. reflexivity. }
  split; [exact Hfair|]. split; [exact Hex|].
  exact (proj2 (scan_ports_raises_iff w "no.such.host" [80; 443] Hfair) Hex).
Defined.

(** X10.  For a list of distinct ports none of whose probes raises, the
    dictionary [scan_ports] returns does not depend on the order in
    which the pool completes the probes. *)
Theorem scan_ports_order_independent w1 w2 domain (ports : list Z) :
  fair w1 -> fair w2 ->
  (forall i port, connect_ex w1 i domain port = connect_ex w2 i domain port) ->
  NoDup ports ->
  (forall i port, ports !! i = Some port ->
                  returns (connect_ex w1 i domain port)) ->
  scan_ports w1 domain ports = scan_ports w2 domain ports /\
  returns (scan_ports w1 domain ports).
Proof.
  intros Hf1 Hf2 Hsame Hnd Hret1.
  assert (forall i port, ports !! i = Some port ->
                         returns (connect_ex w2 i domain port)) as Hret2.
  { intros i port Hi. rewrite <- Hsame. apply (Hret1 i port Hi). }
  assert (forall i port,
            scan_single_port w1 domain i port = scan_single_port w2 domain i port)
    as Hsingle.
  { intros i port. unfold scan_single_port. rewrite Hsame. reflexivity. }
  unfold scan_ports.
  destruct (record_ports_loop w1 domain ports
              (as_completed w1 (List.length (imap (scan_single_port w1 domain) ports)))
              ∅ Hret1) as (m1 & -> & Hdom1 & Hval1).
  destruct (record_ports_loop w2 domain ports
              (as_completed w2 (List.length (imap (scan_single_port w2 domain) ports)))
              ∅ Hret2) as (m2 & -> & Hdom2 & Hval2).
  split; [|eexists; reflexivity]. f_equal. apply map_eq. intros port.
  assert (forall (m : gmap Z string) w,
            (forall port, is_Some (m !! port) <->
               is_Some ((∅ : gmap Z string) !! port) \/
               exists i, i ∈ as_completed w
                               (List.length (imap (scan_single_port w domain) ports))
                         /\ ports !! i = Some port) ->
            fair w ->
            forall port, is_Some (m !! port) <-> port ∈ ports) as Hkeys.
  { intros m w Hdom Hfair p. rewrite Hdom, list_elem_of_lookup. split.
    - intros [[x Hx]|(i & _ & Hi)]; [rewrite lookup_empty in Hx; discriminate|].
      eauto.
    - intros [i Hi]. right. exists i. split; [|exact Hi].
      rewrite (Hfair _), length_imap, elem_of_seq.
      apply lookup_lt_Some in Hi. lia. }
  pose proof (Hkeys m1 w1 Hdom1 Hf1 port) as Hk1.
  pose proof (Hkeys m2 w2 Hdom2 Hf2 port) as Hk2.
  destruct (m1 !! port) as [st1|] eqn:H1, (m2 !! port) as [st2|] eqn:H2.
  - destruct (Hval1 port st1 H1) as [H|(i & Hi & Hs1)];
      [rewrite lookup_empty in H; discriminate|].
    destruct (Hval2 port st2 H2) as [H|(j & Hj & Hs2)];
      [rewrite lookup_empty in H; discriminate|].
    assert (i = j) as -> by (eapply NoDup_lookup; eassumption).
    rewrite Hsingle, Hs2 in Hs1. congruence.
  - exfalso. assert (is_Some (Some st1)) as Hs by eauto.
    apply Hk1, Hk2 in Hs. destruct Hs as [x Hx]. discriminate Hx.
  - exfalso. assert (is_Some (Some st2)) as Hs by eauto.
    apply Hk2, Hk1 in Hs. destruct Hs as [x Hx]. discriminate Hx.
  - reflexivity.
Qed.

Lemma scan_ports_order_independent_witness :
  let w1 := posix_world (Ret EmptyString) in
  let w2 := reversed_lan (fun _ => false) [] [] in
  fair w1 /\ fair w2 /\ NoDup [80; 443; 8080] /\
  scan_ports w1 "example.org" [80; 443; 8080]
  = scan_ports w2 "example.org" [80; 443; 8080].
Proof.
  intros w1 w2.
  assert (fair w1) as H1 by apply posix_world_fair.
  assert (fair w2) as H2 by apply reversed_lan_fair.
  assert (NoDup [80; 443; 8080]) as Hnd.
  { repeat constructor; rewrite ?elem_of_cons, ?elem_of_nil; intuition lia. }
  split; [exact H1|]. split; [exact H2|]. split; [exact Hnd|].
  apply (scan_ports_order_independent w1 w2 "example.org" [80; 443; 8080]
           H1 H2); [reflexivity | exact Hnd |].
  intros i port _. exists 111. reflexivity.
Defined.

(** * [WebsiteAnalysis] *)

(** ** [ping_test] *)

Ltac captures_split :=
  repeat match goal with
  | |- Re.captures _ (Re.Lit _) => apply captures_Lit
  | |- Re.captures _ _ => simpl
  | |- _ /\ _ => split
  | |- True => exact I
  end.

Lemma captures_win_latency_int : Re.captures int_text Pat.win_latency.
Proof.
  unfold Pat.win_latency, Pat.cat. captures_split;
    intros p Hp; apply lang_digits, Hp.
Qed.

Lemma captures_win_lost : Re.captures int_text WebPat.win_lost.
Proof.
  unfold WebPat.win_lost, Pat.cat. captures_split;
    intros p Hp; apply lang_digits, Hp.
Qed.

Lemma captures_posix_loss_percent :
  Re.captures int_text WebPat.posix_loss_percent.
Proof.
  unfold WebPat.posix_loss_percent, Pat.cat. captures_split;
    intros p Hp; apply lang_digits, Hp.
Qed.

Lemma ping_loss_group w output m :
  Re.search (ping_loss_pattern w) output = Some m ->
  Conv.py_int (Re.group m 1) = Ret (Conv.digits_val (Re.group m 1) 0) /\
  0 <= Conv.digits_val (Re.group m 1) 0.
Proof.
  unfold ping_loss_pattern. intros Hm.
  assert (int_text 1 (Re.group m 1)) as [H1 H2].
  { destruct (is_windows w).
    - apply (search_group int_text _ _ _ _ captures_win_lost Hm).
      vm_compute. tauto.
    - apply (search_group int_text _ _ _ _ captures_posix_loss_percent Hm).
      vm_compute. tauto. }
  split; [apply py_int_digits; assumption|].
  apply digits_val_nonneg; [assumption|lia].
Qed.

Lemma win_latency_ints output m :
  Re.search Pat.win_latency output = Some m ->
  forall n, In n [1; 2; 3]%nat ->
    Conv.py_int (Re.group m n) = Ret (Conv.digits_val (Re.group m n) 0) /\
    Conv.py_float (Re.group m n)
    = Ret (inject_Z (Conv.digits_val (Re.group m n) 0)).
Proof.
  intros Hm n Hn.
  assert (int_text n (Re.group m n)) as [H1 H2].
  { apply (search_group int_text _ _ _ _ captures_win_latency_int Hm).
    vm_compute in Hn |- *. tauto. }
  split; [apply py_int_digits | apply py_float_digits]; assumption.
Qed.

Ltac ping_simpl :=
  cbn [Ping.min Ping.avg Ping.max Ping.packet_loss Ping.error Ping.value
       Ping.set_min Ping.set_avg Ping.set_max Ping.set_packet_loss
       Ping.initial Ping.failed fst snd].

(** What [ping_test] returns, case by case. *)
Lemma ping_test_cases w domain :
  match check_output w (ping_command w domain) with
  | Raise e => ping_test w domain = Ret (Ping.failed (str_exn e))
  | Ret output =>
      exists p,
        ping_test w domain = Ret p /\ Ping.error p = None /\
        Ping.packet_loss p
        = match Re.search (ping_loss_pattern w) output with
          | Some m => ping_loss_of w (Conv.digits_val (Re.group m 1) 0)
          | None => 0
          end /\
        match Re.search (latency_pattern w) output with
        | None =>
            Ping.min p = Ping.Int 0 /\ Ping.avg p = Ping.Int 0 /\
            Ping.max p = Ping.Int 0
        | Some m =>
            Conv.py_float (Re.group m 1) = Ret (Ping.value (Ping.min p)) /\
            Conv.py_float (Re.group m (avg_group w))
            = Ret (Ping.value (Ping.avg p)) /\
            Conv.py_float (Re.group m (max_group w))
            = Ret (Ping.value (Ping.max p))
        end
  end.
Proof.
  destruct (check_output w (ping_command w domain)) as [output|e] eqn:Hout.
  - pose proof (ping_loss_group w output) as Hloss.
    pose proof (latency_groups w output) as Hlat.
    unfold ping_test, ping_test_body, ping_command, ping_loss_pattern,
      ping_loss_of, latency_pattern, avg_group, max_group in *.
    destruct (is_windows w); py_unfold; rewrite Hout.
    + pose proof (win_latency_ints output) as Hint.
      destruct (Re.search WebPat.win_lost output) as [ml|];
        [destruct (Hloss ml eq_refl) as [-> _]|];
        (destruct (Re.search Pat.win_latency output) as [m|];
         [destruct (Hint m eq_refl 1%nat) as [-> H1]; [simpl; tauto|];
          destruct (Hint m eq_refl 2%nat) as [-> H2]; [simpl; tauto|];
          destruct (Hint m eq_refl 3%nat) as [-> H3]; [simpl; tauto|]|]);
        ping_simpl; eexists; (split; [reflexivity|]); ping_simpl;
        repeat split; assumption.
    + destruct (Re.search WebPat.posix_loss_percent output) as [ml|];
        [destruct (Hloss ml eq_refl) as [-> _]|];
        (destruct (Re.search Pat.posix_latency output) as [m|];
         [destruct (Hlat m eq_refl) as (a & b & c & Ha & Hb & Hc);
          rewrite Ha, Hb, Hc|]);
        ping_simpl; eexists; (split; [reflexivity|]); ping_simpl;
        repeat split; reflexivity.
  - unfold ping_test, ping_test_body, ping_command in *.
    destruct (is_windows w); py_unfold; rewrite Hout; reflexivity.
Qed.

(** X11.  [ping_test] always returns.  Its result carries an error
    exactly when the ping command itself fails, and then it is the fixed
    dictionary min = avg = max = 0, packet_loss = 100 with the exception
    text; the conversions of what the patterns capture never fail. *)
Theorem ping_test_error_iff w domain :
  exists p,
    ping_test w domain = Ret p /\
    (Ping.error p <> None <-> raises (check_output w (ping_command w domain))) /\
    (forall e, check_output w (ping_command w domain) = Raise e ->
               p = Ping.failed (str_exn e)).
Proof.
  pose proof (ping_test_cases w domain) as H.
  destruct (check_output w (ping_command w domain)) as [output|e].
  - destruct H as (p & Hp & Herr & _). exists p. split; [exact Hp|]. split.
    + rewrite Herr. split; [congruence|]. intros [e He]. discriminate He.
    + intros e He. discriminate He.
  - eexists. split; [exact H|]. split.
    + split; [intros _; eexists; reflexivity | discriminate].
    + intros e' [= <-]. reflexivity.
Qed.

(** X12.  When the ping output shows a loss figure, [ping_test] reports
    as packet_loss 25 times the captured count on Windows (right for the
    4 packets it sends, above 100 from a count of 5 on) and the captured
    percentage itself elsewhere. *)
Theorem ping_test_packet_loss w domain output m :
  check_output w (ping_command w domain) = Ret output ->
  Re.search (ping_loss_pattern w) output = Some m ->
  exists p count,
    ping_test w domain = Ret p /\
    Conv.py_int (Re.group m 1) = Ret count /\ 0 <= count /\
    Ping.packet_loss p = (if is_windows w then count * 25 else count).
Proof.
  intros Hout Hm. pose proof (ping_test_cases w domain) as H.
  rewrite Hout in H. destruct H as (p & Hp & _ & Hloss & _).
  rewrite Hm in Hloss. destruct (ping_loss_group w output m Hm) as [Hint Hpos].
  exists p, (Conv.digits_val (Re.group m 1) 0).
  repeat split; assumption.
Qed.

Lemma ping_test_packet_loss_witness :
  let out := "    Packets: Sent = 4, Received = 3, Lost = 1 (25% loss)," in
  let w := windows_world (Ret out) in
  check_output w (ping_command w "example.org") = Ret out /\
  exists m, Re.search (ping_loss_pattern w) out = Some m /\
  exists p count,
    ping_test w "example.org" = Ret p /\
    Conv.py_int (Re.group m 1) = Ret count /\ 0 <= count /\
    Ping.packet_loss p = (if is_windows w then count * 25 else count).
Proof.
  intros out w. split; [reflexivity|].
  destruct (Re.search (ping_loss_pattern w) out) as [m|] eqn:Hm;
    [|vm_compute in Hm; discriminate Hm].
  exists m. split; [reflexivity|].
  exact (ping_test_packet_loss w "example.org" out m eq_refl Hm).
Defined.

(** X13.  On the same ping output, [ping_test] and [latency_check]
    report the same minimum, average and maximum (as integers by the
    former on Windows, as floats otherwise). *)
Theorem ping_test_agrees_with_latency_check w domain output l p :
  check_output w (ping_command w domain) = Ret output ->
  check_output w (latency_command w domain) = Ret output ->
  latency_check w domain = Ret l -> ping_test w domain = Ret p ->
  Ping.value (Ping.min p) = Latency.min l /\
  Ping.value (Ping.avg p) = Latency.avg l /\
  Ping.value (Ping.max p) = Latency.max l.
Proof.
  intros Hping Hlat Hl Hp.
  pose proof (ping_test_cases w domain) as H1. rewrite Hping in H1.
  pose proof (latency_check_cases w domain) as H2. rewrite Hlat in H2.
  destruct H1 as (p' & Hp' & _ & _ & H1). rewrite Hp in Hp'.
  injection Hp' as <-.
  destruct (Re.search (latency_pattern w) output) as [m|].
  - destruct H2 as (lo & mid & hi & Hlo & Hmid & Hhi & H2).
    rewrite Hl in H2. injection H2 as ->. simpl.
    destruct H1 as (E1 & E2 & E3). repeat split; congruence.
  - rewrite Hl in H2. injection H2 as ->.
    destruct H1 as (-> & -> & ->). repeat split.
Qed.

Lemma ping_test_agrees_with_latency_check_witness :
  let w := posix_world (Ret healthy_ping) in
  let l := Latency.Make (1189 # 125) (41 # 4) (11003 # 1000) None in
  let p := Ping.Make (Ping.Float (1189 # 125)) (Ping.Float (41 # 4))
             (Ping.Float (11003 # 1000)) 0 None in
  latency_check w "example.org" = Ret l /\ ping_test w "example.org" = Ret p /\
  Ping.value (Ping.min p) = Latency.min l /\
  Ping.value (Ping.avg p) = Latency.avg l /\
  Ping.value (Ping.max p) = Latency.max l.
Proof.
  intros w l p.
  assert (latency_check w "example.org" = Ret l) as Hl by (vm_compute; reflexivity).
  assert (ping_test w "example.org" = Ret p) as Hp by (vm_compute; reflexivity).
  split; [exact Hl|]. split; [exact Hp|].
  exact (ping_test_agrees_with_latency_check w "example.org" healthy_ping l p
           eq_refl eq_refl Hl Hp).
Defined.

(** ** Latency: when an error is reported *)

(** X14.  [latency_check] reports an error exactly when the ping
    command itself fails, and then the three values are zero: a summary
    line that is found always converts. *)
Theorem latency_check_error_iff w host r :
  latency_check w host = Ret r ->
  (Latency.error r <> None
   <-> raises (check_output w (latency_command w host))) /\
  (Latency.error r <> None -> is_sentinel r).
Proof.
  intros Hr. pose proof (latency_check_cases w host) as H.
  destruct (check_output w (latency_command w host)) as [output|e].
  - assert (Latency.error r = None) as Herr.
    { destruct (Re.search (latency_pattern w) output) as [m|].
      - destruct H as (lo & mid & hi & _ & _ & _ & H).
        rewrite H in Hr. injection Hr as <-. reflexivity.
      - rewrite H in Hr. injection Hr as <-. reflexivity. }
    rewrite Herr. split; [|congruence].
    split; [congruence|]. intros [e He]. discriminate He.
  - rewrite H in Hr. injection Hr as <-. split.
    + split; [intros _; eexists; reflexivity | discriminate].
    + intros _. repeat split; reflexivity.
Qed.

Lemma latency_check_error_iff_witness :
  let r := Latency.Make 0 0 0
    (Some "Command 'ping -c 50 google.com' returned non-zero exit status 1.") in
  latency_check unreachable_world "google.com" = Ret r /\
  raises (check_output unreachable_world
            (latency_command unreachable_world "google.com")) /\
  is_sentinel r.
Proof.
  intros r.
  assert (latency_check unreachable_world "google.com" = Ret r) as Hr
    by (vm_compute; reflexivity).
  destruct (latency_check_error_iff unreachable_world "google.com" r Hr)
    as [Hiff Hs].
  split; [exact Hr|]. split.
  - apply Hiff. discriminate.
  - apply Hs. discriminate.
Defined.

(** ** DNS records *)

Lemma dns_lookup_spec resolve domain ty recs :
  dns_lookup resolve domain ty recs
  = (Ret tt, <[ty := dns_entry resolve domain ty]> recs).
Proof.
  unfold dns_lookup, dns_entry. py_unfold.
  destruct (resolve domain ty); reflexivity.
Qed.

Lemma dns_loop_spec resolve domain (types : list string)
  (recs : gmap string (list string)) :
  exists recs' : gmap string (list string),
    Py.for_each types (dns_lookup resolve domain) recs = (Ret tt, recs') /\
    forall ty,
      recs' !! ty
      = if decide (ty ∈ types) then Some (dns_entry resolve domain ty)
        else recs !! ty.
Proof.
  revert recs. induction types as [|t types IH]; intros recs; simpl.
  - exists recs. split; [reflexivity|]. intros ty.
    destruct (decide (ty ∈ [])) as [H|_]; [inversion H|reflexivity].
  - unfold Py.bind. rewrite dns_lookup_spec.
    destruct (IH (<[t := dns_entry resolve domain t]> recs)) as (recs' & -> & H).
    exists recs'. split; [reflexivity|]. intros ty. rewrite H.
    destruct (decide (ty ∈ types)) as [Hin|Hnin].
    + rewrite decide_True by (right; exact Hin). reflexivity.
    + destruct (decide (ty = t)) as [->|Hne].
      * rewrite decide_True by left. apply lookup_insert_eq.
      * rewrite decide_False by (rewrite elem_of_cons; tauto).
        apply lookup_insert_ne. congruence.
Qed.

(** X15.  [get_dns_records] always returns a dictionary with exactly the
    six record types A, AAAA, MX, TXT, NS and CNAME as keys; each type
    holds the answers of its own query, or ["No records found"] when
    that query raises, whatever happens to the other queries. *)
Theorem get_dns_records_complete resolve domain :
  exists recs : gmap string (list string),
    get_dns_records resolve domain = Ret recs /\
    dom recs = list_to_set record_types /\
    forall ty, ty ∈ record_types ->
               recs !! ty = Some (dns_entry resolve domain ty).
Proof.
  unfold get_dns_records.
  destruct (dns_loop_spec resolve domain record_types ∅) as (recs & -> & H).
  exists recs. split; [reflexivity|]. split.
  - apply set_eq. intros ty. rewrite elem_of_dom, elem_of_list_to_set, H.
    destruct (decide (ty ∈ record_types)) as [Hin|Hnin].
    + split; [intros _; exact Hin | eauto].
    + rewrite lookup_empty. split; [intros [x Hx]; discriminate Hx|tauto].
  - intros ty Hin. rewrite H, decide_True by exact Hin. reflexivity.
Qed.

(** * [modules/export.py] *)

Example flatten_dict_sample :
  Data.flatten_dict "_" sample_results (Data.KStr "")
  = [(Data.KStr "Domain IP_IPv4", Data.Scalar (Data.AStr "93.184.216.34"));
     (Data.KStr "Domain IP_IPv6", Data.Scalar (Data.AStr "Not available"));
     (Data.KStr "Port Scan_80", Data.Scalar (Data.AStr "Open"));
     (Data.KStr "Port Scan_443", Data.Scalar (Data.AStr "Closed"));
     (Data.KStr "DNS Records_A_0", Data.Scalar (Data.AStr "93.184.216.34"))].
Proof. vm_compute. reflexivity. Qed.

Example write_dict_to_text_sample :
  Data.write_dict_to_text plain_fmt sample_results 0
  = ["Domain IP:" +:+ nl;
     "  IPv4: 93.184.216.34" +:+ nl;
     "  IPv6: Not available" +:+ nl;
     "Port Scan:" +:+ nl;
     "  80: Open" +:+ nl;
     "  443: Closed" +:+ nl;
     "DNS Records:" +:+ nl;
     "  A:" +:+ nl;
     "    - 93.184.216.34" +:+ nl].
Proof. vm_compute. reflexivity. Qed.

Section DataFacts.
Import Data.

Lemma key_eqb_eq (a b : key) : key_eqb a b = true <-> a = b.
Proof.
  destruct a as [s|x], b as [t|y]; simpl.
  - rewrite String.eqb_eq. split; congruence.
  - split; discriminate.
  - split; discriminate.
  - rewrite Z.eqb_eq. split; congruence.
Qed.

Lemma key_eqb_neq (a b : key) : key_eqb a b = false <-> a <> b.
Proof.
  rewrite <- key_eqb_eq. destruct (key_eqb a b); split; congruence.
Qed.

Lemma dict_set_Forall (P : key * value -> Prop) k v d :
  P (k, v) -> Forall P d -> Forall P (dict_set k v d).
Proof.
  intros Hkv. induction 1 as [|[k' v'] d Hx Hd IH]; simpl.
  - repeat constructor. exact Hkv.
  - destruct (key_eqb k k') eqn:Hk.
    + apply key_eqb_eq in Hk as <-. constructor; assumption.
    + constructor; assumption.
Qed.

Lemma foldl_dict_set_Forall (P : key * value -> Prop) items acc :
  Forall P items -> Forall P acc ->
  Forall P (foldl (fun d kv => dict_set (fst kv) (snd kv) d) acc items).
Proof.
  intros H. revert acc. induction H as [|[k v] items Hx Hitems IH];
    intros acc Hacc; simpl; [exact Hacc|].
  apply IH, dict_set_Forall; assumption.
Qed.

Lemma dict_of_items_Forall (P : key * value -> Prop) items :
  Forall P items -> Forall P (dict_of_items items).
Proof. intros H. apply foldl_dict_set_Forall; [exact H|constructor]. Qed.

Lemma dict_set_fresh k v d :
  ~ In k (map fst d) -> dict_set k v d = d ++ [(k, v)].
Proof.
  induction d as [|[k' v'] d IH]; simpl; intros Hk; [reflexivity|].
  destruct (key_eqb k k') eqn:E.
  - apply key_eqb_eq in E. exfalso. apply Hk. left. congruence.
  - rewrite IH by tauto. reflexivity.
Qed.

Lemma foldl_dict_set_nodup items acc :
  List.NoDup (map fst (acc ++ items)) ->
  foldl (fun d kv => dict_set (fst kv) (snd kv) d) acc items = acc ++ items.
Proof.
  revert acc. induction items as [|[k v] items IH]; intros acc H; simpl.
  - rewrite app_nil_r. reflexivity.
  - rewrite dict_set_fresh.
    + rewrite IH; rewrite <- app_assoc; [reflexivity|exact H].
    + rewrite map_app in H. simpl in H.
      apply List.NoDup_remove_2 in H.
      intros Hin. apply H, in_or_app. left. exact Hin.
Qed.

(** A dictionary rebuilt from its own items is unchanged. *)
Lemma dict_of_items_nodup items :
  List.NoDup (map fst items) -> dict_of_items items = items.
Proof. intros H. apply (foldl_dict_set_nodup items []). exact H. Qed.

Lemma dict_set_keys k v d :
  map fst (dict_set k v d)
  = if existsb (key_eqb k) (map fst d) then map fst d else map fst d ++ [k].
Proof.
  induction d as [|[k' v'] d IH]; simpl; [reflexivity|].
  destruct (key_eqb k k') eqn:E; simpl; [reflexivity|].
  rewrite IH. destruct (existsb _ _); reflexivity.
Qed.

Lemma dict_set_nodup k v d :
  List.NoDup (map fst d) -> List.NoDup (map fst (dict_set k v d)).
Proof.
  intros H. rewrite dict_set_keys.
  destruct (existsb (key_eqb k) (map fst d)) eqn:E; [exact H|].
  apply List.NoDup_app; [exact H | repeat constructor; intros [] |].
  intros x Hx [Hk|[]]. subst x.
  assert (existsb (key_eqb k) (map fst d) = true) as E'.
  { apply existsb_exists. exists k. split; [exact Hx|]. apply key_eqb_eq.
    reflexivity. }
  congruence.
Qed.

(** The keys of a rebuilt dictionary are distinct. *)
Lemma dict_of_items_keys_nodup items :
  List.NoDup (map fst (dict_of_items items)).
Proof.
  unfold dict_of_items.
  assert (forall acc, List.NoDup (map fst acc) ->
            List.NoDup (map fst
              (foldl (fun d kv => dict_set (fst kv) (snd kv) d) acc items))) as H.
  { induction items as [|[k v] items IH]; intros acc Hacc; simpl; [exact Hacc|].
    apply IH, dict_set_nodup, Hacc. }
  apply H. constructor.
Qed.

End DataFacts.

Section FlattenFacts.
Import Data.
Variable sep : string.

Lemma flatten_entry_no_dict (v : value) :
  forall new_key,
    Forall (fun kv => is_dict (snd kv) = false) (flatten_entry sep new_key v).
Proof.
  induction v as [a|items IH|items IH] using value_ind; intros new_key.
  - repeat constructor.
  - cbn [flatten_entry]. apply dict_of_items_Forall.
    induction IH as [|[k v] items Hv _ IHitems]; [constructor|].
    apply Forall_app. split; [apply Hv | exact IHitems].
  - cbn [flatten_entry]. generalize 0%nat.
    induction IH as [|item items Hitem _ IHitems]; intros i; [constructor|].
    apply Forall_app. split; [|apply IHitems].
    destruct (is_dict item) eqn:E; [apply Hitem|].
    repeat constructor. exact E.
Qed.

(** X16.  No value of a flattened dictionary is a dictionary. *)
Theorem flatten_dict_no_dict (d : list (key * value)) (parent_key : key) :
  Forall (fun kv => is_dict (snd kv) = false) (flatten_dict sep d parent_key).
Proof. apply flatten_entry_no_dict. Qed.

Lemma flatten_flat_items (d : list (key * value)) (parent_key : key) :
  truthy parent_key = false ->
  Forall (fun kv => is_scalar (snd kv) = true) d ->
  (fix each (its : list (key * value)) : list (key * value) :=
     match its with
     | [] => []
     | (k, v') :: its' =>
         flatten_entry sep (child_key sep parent_key k) v' ++ each its'
     end) d = d.
Proof.
  intros Hp. induction 1 as [|[k v] d Hv _ IH]; [reflexivity|].
  rewrite IH. unfold child_key. rewrite Hp.
  destruct v; try discriminate Hv. reflexivity.
Qed.

Lemma flatten_flat (d : list (key * value)) (parent_key : key) :
  truthy parent_key = false ->
  List.NoDup (map fst d) ->
  Forall (fun kv => is_scalar (snd kv) = true) d ->
  flatten_dict sep d parent_key = d.
Proof.
  intros Hp Hnd Hflat. unfold flatten_dict. cbn [flatten_entry].
  rewrite (flatten_flat_items d parent_key Hp Hflat).
  apply dict_of_items_nodup, Hnd.
Qed.

(** X17.  Flattening a dictionary whose values are all scalars (no
    dictionary, no list) returns it unchanged, items in the same order. *)
Theorem flatten_dict_flat_identity (d : list (key * value)) :
  List.NoDup (map fst d) ->
  Forall (fun kv => is_scalar (snd kv) = true) d ->
  flatten_dict sep d (KStr EmptyString) = d.
Proof. apply flatten_flat. reflexivity. Qed.

(** X18.  Flattening is idempotent whenever the flattened dictionary
    holds no list (a list survives flattening only when it stood
    directly inside another list). *)
Theorem flatten_dict_idempotent (d : list (key * value)) :
  Forall (fun kv => is_list (snd kv) = false)
         (flatten_dict sep d (KStr EmptyString)) ->
  flatten_dict sep (flatten_dict sep d (KStr EmptyString)) (KStr EmptyString)
  = flatten_dict sep d (KStr EmptyString).
Proof.
  intros Hnl. apply flatten_flat; [reflexivity| |].
  - apply dict_of_items_keys_nodup.
  - pose proof (flatten_entry_no_dict (Dict d) (KStr EmptyString)) as Hnd.
    fold (flatten_dict sep d (KStr EmptyString)) in Hnd.
    revert Hnl Hnd. generalize (flatten_dict sep d (KStr EmptyString)).
    intros l Hnl Hnd. induction l as [|[k v] l IH]; [constructor|].
    inversion Hnl; inversion Hnd; subst. constructor; [|apply IH; assumption].
    destruct v; simpl in *; congruence.
Qed.

End FlattenFacts.

Lemma flatten_dict_flat_identity_witness :
  let d := [(Data.KStr "min", Data.Scalar (Data.AInt 0));
            (Data.KStr "error", Data.Scalar (Data.AStr "timed out"))] in
  List.NoDup (map fst d) /\
  Forall (fun kv => Data.is_scalar (snd kv) = true) d /\
  Data.flatten_dict "_" d (Data.KStr EmptyString) = d.
Proof.
  intros d.
  assert (List.NoDup (map fst d)) as Hnd.
  { repeat constructor; simpl; intuition discriminate. }
  assert (Forall (fun kv => Data.is_scalar (snd kv) = true) d) as Hs
    by (repeat constructor).
  split; [exact Hnd|]. split; [exact Hs|].
  exact (flatten_dict_flat_identity "_" d Hnd Hs).
Defined.

Lemma flatten_dict_idempotent_witness :
  Forall (fun kv => Data.is_list (snd kv) = false)
         (Data.flatten_dict "_" sample_results (Data.KStr EmptyString)) /\
  Data.flatten_dict "_"
    (Data.flatten_dict "_" sample_results (Data.KStr EmptyString))
    (Data.KStr EmptyString)
  = Data.flatten_dict "_" sample_results (Data.KStr EmptyString).
Proof.
  assert (Forall (fun kv => Data.is_list (snd kv) = false)
            (Data.flatten_dict "_" sample_results (Data.KStr EmptyString))) as H.
  { vm_compute. repeat constructor. }
  split; [exact H|].
  exact (flatten_dict_idempotent "_" sample_results H).
Defined.

Section FlattenKeys.
Import Data.
Variable sep : string.

Lemma truthy_prefixed (pre rest : string) :
  pre <> EmptyString -> truthy (KStr (pre +:+ rest)) = true.
Proof. destruct pre; [congruence|reflexivity]. Qed.

Lemma flatten_entry_prefixed (v : value) :
  forall pre rest, pre <> EmptyString ->
    Forall (fun kv => prefixed pre (fst kv))
           (flatten_entry sep (KStr (pre +:+ rest)) v).
Proof.
  induction v as [a|items IH|items IH] using value_ind; intros pre rest Hpre.
  - repeat constructor. exists rest. reflexivity.
  - cbn [flatten_entry]. apply dict_of_items_Forall.
    induction IH as [|[k v] items Hv _ IHitems]; [constructor|].
    apply Forall_app. split; [|exact IHitems].
    unfold child_key. rewrite (truthy_prefixed pre rest Hpre).
    cbn [key_str]. rewrite append_assoc. apply Hv, Hpre.
  - cbn [flatten_entry]. generalize 0%nat.
    induction IH as [|item items Hitem _ IHitems]; intros i; [constructor|].
    apply Forall_app. split; [|apply IHitems].
    unfold index_key. cbn [key_str]. rewrite append_assoc.
    destruct (is_dict item); [apply Hitem, Hpre|].
    repeat constructor. eexists. reflexivity.
Qed.

(** X19.  Every key produced by flattening a dictionary under a
    non-empty parent key is a text that begins with the parent key
    followed by the separator. *)
Theorem flatten_dict_keys_prefixed (d : list (key * value)) (p : string) :
  p <> EmptyString ->
  Forall (fun kv => prefixed (p +:+ sep) (fst kv))
         (flatten_dict sep d (KStr p)).
Proof.
  intros Hp. unfold flatten_dict. cbn [flatten_entry].
  apply dict_of_items_Forall.
  induction d as [|[k v] d IH]; [constructor|].
  apply Forall_app. split; [|exact IH].
  unfold child_key.
  replace (truthy (KStr p)) with true
    by (destruct p; [congruence|reflexivity]).
  cbn [key_str]. rewrite <- append_assoc.
  apply flatten_entry_prefixed. destruct p; [congruence|discriminate].
Qed.

End FlattenKeys.

Lemma flatten_dict_keys_prefixed_witness :
  "Port Scan" <> EmptyString /\
  Forall (fun kv => prefixed ("Port Scan" +:+ "_") (fst kv))
    (Data.flatten_dict "_"
       [(Data.KInt 80, Data.Scalar (Data.AStr "Open"));
        (Data.KInt 443, Data.Scalar (Data.AStr "Closed"))]
       (Data.KStr "Port Scan")).
Proof.
  assert ("Port Scan" <> EmptyString) as H by discriminate.
  split; [exact H|].
  exact (flatten_dict_keys_prefixed "_" _ "Port Scan" H).
Defined.

Section WriteFacts.
Import Data.
Variable fmt : value -> string.

Lemma spaces_add (a b : nat) : spaces (a + b) = spaces a +:+ spaces b.
Proof.
  induction a as [|a IH]; [reflexivity|].
  simpl. rewrite IH. reflexivity.
Qed.

Lemma indented_weaken (indent : nat) (t : string) :
  indented_line (indent + 2) t -> indented_line indent t.
Proof.
  intros [r ->]. exists (spaces 2 +:+ r).
  rewrite spaces_add, !append_assoc. reflexivity.
Qed.

Lemma write_entry_indented (v : value) :
  forall indent k, Forall (indented_line indent) (write_entry fmt indent k v).
Proof.
  induction v as [a|items IH|items IH] using value_ind; intros indent k.
  - repeat constructor. exists (key_str k +:+ ": " +:+ fmt (Scalar a)).
    rewrite !append_assoc. reflexivity.
  - cbn [write_entry]. constructor.
    { exists (key_str k +:+ ":"). rewrite !append_assoc. reflexivity. }
    induction IH as [|[k' v'] items Hv _ IHitems]; [constructor|].
    apply Forall_app. split; [|exact IHitems].
    eapply Forall_impl; [apply Hv|]. apply indented_weaken.
  - cbn [write_entry]. constructor.
    { exists (key_str k +:+ ":"). rewrite !append_assoc. reflexivity. }
    induction IH as [|item items Hitem _ IHitems]; [constructor|].
    apply Forall_app. split; [|exact IHitems].
    destruct item as [a|its|l].
    + repeat constructor. apply indented_weaken.
      exists ("- " +:+ fmt (Scalar a)). rewrite !append_assoc. reflexivity.
    + specialize (Hitem indent k). cbn [write_entry] in Hitem.
      inversion Hitem; subst. assumption.
    + repeat constructor. apply indented_weaken.
      exists ("- " +:+ fmt (List l)). rewrite !append_assoc. reflexivity.
Qed.

(** X20.  Every text [write_dict_to_text] writes is one line: it begins
    with at least [indent] blanks and ends with a newline, at every
    depth of nesting. *)
Theorem write_dict_to_text_indented (d : list (key * value)) (indent : nat) :
  Forall (indented_line indent) (write_dict_to_text fmt d indent).
Proof.
  induction d as [|[k v] d IH]; [constructor|].
  cbn [write_dict_to_text]. apply Forall_app.
  split; [apply write_entry_indented | exact IH].
Qed.

End WriteFacts.

(** * [modules/system_info.py] *)

Example get_mac_address_sample :
  Mac.get_mac_address 0x0242ac11000f = "02:42:ac:11:00:0f".
Proof. vm_compute. reflexivity. Qed.

Section MacFacts.
Import Mac.

Lemma hexdigit_inj (a b : Z) :
  0 <= a < 16 -> 0 <= b < 16 -> hexdigit a = hexdigit b -> a = b.
Proof.
  intros Ha Hb.
  assert (a = 0 \/ a = 1 \/ a = 2 \/ a = 3 \/ a = 4 \/ a = 5 \/ a = 6 \/ a = 7
          \/ a = 8 \/ a = 9 \/ a = 10 \/ a = 11 \/ a = 12 \/ a = 13 \/ a = 14
          \/ a = 15) as Hca by lia.
  assert (b = 0 \/ b = 1 \/ b = 2 \/ b = 3 \/ b = 4 \/ b = 5 \/ b = 6 \/ b = 7
          \/ b = 8 \/ b = 9 \/ b = 10 \/ b = 11 \/ b = 12 \/ b = 13 \/ b = 14
          \/ b = 15) as Hcb by lia.
  repeat (destruct Hca as [->|Hca]); try subst a;
    repeat (destruct Hcb as [->|Hcb]); try subst b;
    simpl; intros H; try reflexivity; discriminate H.
Qed.

Lemma format_02x_inj (a b : Z) :
  0 <= a < 256 -> 0 <= b < 256 -> format_02x a = format_02x b -> a = b.
Proof.
  intros Ha Hb. unfold format_02x. intros [= H1 H2].
  apply hexdigit_inj in H1;
    [|Z.to_euclidean_division_equations; lia
     |Z.to_euclidean_division_equations; lia].
  apply hexdigit_inj in H2;
    [|Z.to_euclidean_division_equations; lia
     |Z.to_euclidean_division_equations; lia].
  Z.to_euclidean_division_equations. lia.
Qed.

Lemma byte_range (mac s : Z) : 0 <= Z.land (Z.shiftr mac s) 255 < 256.
Proof.
  change 255 with (Z.ones 8). rewrite Z.land_ones by lia.
  apply Z.mod_pos_bound. reflexivity.
Qed.

Lemma byte_value (mac s : Z) :
  0 <= s -> Z.land (Z.shiftr mac s) 255 = (mac / 2 ^ s) mod 256.
Proof.
  intros Hs. change 255 with (Z.ones 8).
  rewrite Z.land_ones by lia. rewrite Z.shiftr_div_pow2 by exact Hs.
  reflexivity.
Qed.

Lemma byte_low48 (a s : Z) :
  0 <= s <= 40 ->
  Z.land (Z.shiftr (a mod 2 ^ 48) s) 255 = Z.land (Z.shiftr a s) 255.
Proof.
  intros Hs. change 255 with (Z.ones 8).
  rewrite <- (Z.land_ones a 48) by lia.
  apply Z.bits_inj'. intros n Hn.
  rewrite !Z.land_spec, !Z.shiftr_spec, Z.land_spec by lia.
  destruct (Z.lt_ge_cases n 8) as [H8|H8].
  - rewrite (Z.ones_spec_low 48) by lia. rewrite andb_true_r. reflexivity.
  - rewrite (Z.ones_spec_high 8) by lia. rewrite !andb_false_r. reflexivity.
Qed.

Lemma mac_text_inj (a1 a2 a3 a4 a5 a6 b1 b2 b3 b4 b5 b6
                    c1 c2 c3 c4 c5 c6 d1 d2 d3 d4 d5 d6 : ascii) :
  join ":" [String a1 (String b1 EmptyString); String a2 (String b2 EmptyString);
            String a3 (String b3 EmptyString); String a4 (String b4 EmptyString);
            String a5 (String b5 EmptyString); String a6 (String b6 EmptyString)]
  = join ":" [String c1 (String d1 EmptyString); String c2 (String d2 EmptyString);
              String c3 (String d3 EmptyString); String c4 (String d4 EmptyString);
              String c5 (String d5 EmptyString); String c6 (String d6 EmptyString)] ->
  a1 = c1 /\ b1 = d1 /\ a2 = c2 /\ b2 = d2 /\ a3 = c3 /\ b3 = d3 /\
  a4 = c4 /\ b4 = d4 /\ a5 = c5 /\ b5 = d5 /\ a6 = c6 /\ b6 = d6.
Proof. intros [= -> -> -> -> -> -> -> -> -> -> -> ->]. repeat split. Qed.

(** X21.  For node numbers below 2^48, [get_mac_address] yields 17
    characters, depends only on the low 48 bits of the number, and
    prints different numbers differently. *)
Theorem get_mac_address_faithful (a b : Z) :
  0 <= a < 2 ^ 48 -> 0 <= b < 2 ^ 48 ->
  String.length (get_mac_address a) = 17%nat /\
  (forall high, get_mac_address (a + high * 2 ^ 48) = get_mac_address a) /\
  (get_mac_address a = get_mac_address b -> a = b).
Proof.
  intros Ha Hb. split; [reflexivity|]. split.
  - intros high. unfold get_mac_address, shifts. cbn [map List.rev app].
    rewrite <- !(byte_low48 (a + high * 2 ^ 48)) by lia.
    rewrite Z.mod_add by lia. rewrite Z.mod_small by exact Ha. reflexivity.
  - unfold get_mac_address, shifts. cbn [map List.rev app join].
    pose proof (byte_range a 0). pose proof (byte_range a 8).
    pose proof (byte_range a 16). pose proof (byte_range a 24).
    pose proof (byte_range a 32). pose proof (byte_range a 40).
    pose proof (byte_range b 0). pose proof (byte_range b 8).
    pose proof (byte_range b 16). pose proof (byte_range b 24).
    pose proof (byte_range b 32). pose proof (byte_range b 40).
    intros Heq.
    apply mac_text_inj in Heq as (A1 & A2 & B1 & B2 & C1 & C2 & D1 & D2
                                  & E1 & E2 & F1 & F2).
    assert (forall s, 0 <= s ->
              hexdigit (Z.land (Z.shiftr a s) 255 / 16)
              = hexdigit (Z.land (Z.shiftr b s) 255 / 16) ->
              hexdigit (Z.land (Z.shiftr a s) 255 mod 16)
              = hexdigit (Z.land (Z.shiftr b s) 255 mod 16) ->
              (a / 2 ^ s) mod 256 = (b / 2 ^ s) mod 256) as Hbyte.
    { intros s Hs Hhi Hlo. rewrite <- !byte_value by exact Hs.
      apply format_02x_inj; try apply byte_range.
      unfold format_02x. rewrite Hhi, Hlo. reflexivity. }
    pose proof (Hbyte 0 ltac:(lia) F1 F2) as G0.
    pose proof (Hbyte 8 ltac:(lia) E1 E2) as G1.
    pose proof (Hbyte 16 ltac:(lia) D1 D2) as G2.
    pose proof (Hbyte 24 ltac:(lia) C1 C2) as G3.
    pose proof (Hbyte 32 ltac:(lia) B1 B2) as G4.
    pose proof (Hbyte 40 ltac:(lia) A1 A2) as G5.
    clear - Ha Hb G0 G1 G2 G3 G4 G5.
    change (2 ^ 0) with 1 in *. change (2 ^ 8) with 256 in *.
    change (2 ^ 16) with 65536 in *. change (2 ^ 24) with 16777216 in *.
    change (2 ^ 32) with 4294967296 in *.
    change (2 ^ 40) with 1099511627776 in *.
    change (2 ^ 48) with 281474976710656 in *.
    Z.to_euclidean_division_equations. lia.
Qed.

End MacFacts.

Lemma get_mac_address_faithful_witness :
  0 <= 0x0242ac11000f < 2 ^ 48 /\
  String.length (Mac.get_mac_address 0x0242ac11000f) = 17%nat /\
  (forall high, Mac.get_mac_address (0x0242ac11000f + high * 2 ^ 48)
                = Mac.get_mac_address 0x0242ac11000f) /\
  (Mac.get_mac_address 0x0242ac11000f = Mac.get_mac_address 0x0242ac11000f ->
   0x0242ac11000f = 0x0242ac11000f).
Proof.
  assert (0 <= 0x0242ac11000f < 2 ^ 48) as H by (split; [lia|reflexivity]).
  split; [exact H|].
  exact (get_mac_address_faithful 0x0242ac11000f 0x0242ac11000f H H).
Defined.
